(** * SandboxStoreClient: a shallow embedding of the DIRAC sandbox client

    The development follows
    [src/DIRAC/WorkloadManagementSystem/Client/SandboxStoreClient.py].
    Python strings are Rocq [string]s, byte strings are [list byte],
    integers are [Z], dictionaries are [gmap]s or, where the iteration
    order is observable, association lists in insertion order.  The
    file system, the history of calls to collaborators and the Python
    exceptions are explicit. *)

From Stdlib Require Import ZArith String Ascii List Lia Bool.
From Stdlib.Strings Require Import Byte.
From stdpp Require Import gmap strings list.

Open Scope string_scope.
Open Scope Z_scope.

(** ** Python string primitives used by the client *)

Module PyStr.

(** [s.find(sub)]: lowest index at which [sub] occurs in [s], [-1] when it
    does not occur. *)
Fixpoint find (s sub : string) : Z :=
  if String.prefix sub s then 0
  else match s with
       | EmptyString => -1
       | String _ s' => let r := find s' sub in
                        if r <? 0 then -1 else r + 1
       end.

(** [s[n:]] for a non-negative [n]. *)
Fixpoint slice_from (n : nat) (s : string) : string :=
  match n, s with
  | O, _ => s
  | S n', String _ s' => slice_from n' s'
  | S _, EmptyString => EmptyString
  end.

(** [s.split(sep)] for a one-character separator: never the empty list. *)
Fixpoint split (sep : ascii) (s : string) : list string :=
  match s with
  | EmptyString => [EmptyString]
  | String c s' =>
      if Ascii.eqb c sep then EmptyString :: split sep s'
      else match split sep s' with
           | [] => [String c EmptyString]
           | p :: ps => String c p :: ps
           end
  end.

(** [sep.join(l)]. *)
Definition join (sep : string) (l : list string) : string :=
  String.concat sep l.

(** [c in s] for a character [c]. *)
Fixpoint has_char (c : ascii) (s : string) : bool :=
  match s with
  | EmptyString => false
  | String c' s' => Ascii.eqb c' c || has_char c s'
  end.

(** Lower-casing of one character, as [re.IGNORECASE] folds the letters of
    the pattern ["^lfn:"]. *)
Definition lower (c : ascii) : ascii :=
  let n := nat_of_ascii c in
  if (Nat.leb 65 n && Nat.leb n 90)%bool then ascii_of_nat (n + 32) else c.

Fixpoint map_chars (f : ascii -> ascii) (s : string) : string :=
  match s with
  | EmptyString => EmptyString
  | String c s' => String (f c) (map_chars f s')
  end.

(** [re.search("^" + pat, s, flags=re.IGNORECASE)] for a literal,
    lower-case [pat]: [pat] matches at index 0, letters compared without
    case ([^] only matches at the very start, there is no [re.MULTILINE]). *)
Definition search_start_ignorecase (pat s : string) : bool :=
  String.prefix pat (map_chars lower s).

(** [s.encode()] *)
Definition encode (s : string) : list byte := list_byte_of_string s.

End PyStr.

(** ** [os.path] functions that only look at the text of a path *)

Module OsPath.

(** [os.path.basename(p)]: what follows the last ['/']. *)
Fixpoint basename (p : string) : string :=
  match p with
  | EmptyString => EmptyString
  | String c p' =>
      if PyStr.has_char "/" p' then basename p'
      else if Ascii.eqb c "/" then p' else p
  end.

Fixpoint ends_with_slash (p : string) : bool :=
  match p with
  | EmptyString => false
  | String c EmptyString => Ascii.eqb c "/"
  | String _ p' => ends_with_slash p'
  end.

(** [os.path.join(a, b)] *)
Definition join (a b : string) : string :=
  if String.prefix "/" b then b
  else if (String.eqb a "" || ends_with_slash a)%bool then a +:+ b
  else a +:+ "/" +:+ b.

End OsPath.

(** ** Values, results and exceptions *)

(** The Python values that travel in the ["Value"] field of a result. *)
#[warnings="-register-all"]
Inductive PyVal :=
| VNone
| VStr (s : string)
| VBytes (b : list byte)
| VInt (n : Z)
| VList (l : list PyVal).

(** Modelled from the spec: [S_OK], [S_ERROR] and the result dictionary
    ([DIRAC.Core.Utilities.ReturnValues], not among the sources) are the
    "return-code style results (success flag plus optional message)" of
    section 4.5.  A result is the dictionary with the keys the client reads
    or writes: ["OK"], ["Value"], ["Message"] and ["SandboxFileName"]. *)
Record Result := mkResult {
  OK : bool;
  Value : PyVal;
  Message : string;
  SandboxFileName : option string
}.

Definition S_OK (v : PyVal) : Result := mkResult true v "" None.
Definition S_ERROR (msg : string) : Result := mkResult false VNone msg None.

(** [result["SandboxFileName"] = path] *)
Definition set_SandboxFileName (r : Result) (path : string) : Result :=
  mkResult (OK r) (Value r) (Message r) (Some path).

(** [result["Value"] = v] *)
Definition set_Value (r : Result) (v : PyVal) : Result :=
  mkResult (OK r) v (Message r) (SandboxFileName r).

(** Where the class of an exception stands under [BaseException]: the
    [except] clauses of the client name [OSError] and [Exception]. *)
Inductive ExnBase :=
| UnderOSError
| UnderException
| UnderBaseException.

(** A Python exception, as far as the client can tell one from another:
    [exn_base] is [UnderOSError] for [OSError] and its subclasses
    ([FileNotFoundError], [PermissionError], ...), [UnderException] for the
    other subclasses of [Exception] ([IndexError], [tarfile.ReadError], ...)
    and [UnderBaseException] for what is outside [Exception]
    ([KeyboardInterrupt], [SystemExit]); [exn_class] is the name of the
    class and [exn_args] the text of its arguments. *)
Record PyExn := mkExn {
  exn_base : ExnBase;
  exn_class : string;
  exn_args : string
}.

(** [repr(e)]: the name of the class of [e], then its arguments. *)
Definition repr (e : PyExn) : string :=
  exn_class e +:+ "(" +:+ exn_args e +:+ ")".

(** [isinstance(e, OSError)] *)
Definition is_OSError (e : PyExn) : bool :=
  match exn_base e with UnderOSError => true | _ => false end.

(** [isinstance(e, Exception)] *)
Definition is_Exception (e : PyExn) : bool :=
  match exn_base e with UnderBaseException => false | _ => true end.

(** The exceptions of the modelled system calls and of list indexing. *)
Definition FileNotFoundError : PyExn :=
  mkExn UnderOSError "FileNotFoundError" "2, 'No such file or directory'".
Definition IsADirectoryError : PyExn :=
  mkExn UnderOSError "IsADirectoryError" "21, 'Is a directory'".
Definition NotADirectoryError : PyExn :=
  mkExn UnderOSError "NotADirectoryError" "20, 'Not a directory'".
Definition DirectoryNotEmpty : PyExn :=
  mkExn UnderOSError "OSError" "39, 'Directory not empty'".
Definition PermissionError : PyExn :=
  mkExn UnderOSError "PermissionError" "13, 'Permission denied'".
Definition IndexError (msg : string) : PyExn :=
  mkExn UnderException "IndexError" ("'" +:+ msg +:+ "'").

(** ** The local file system *)

(** What [os.stat] reports and [tarfile] copies into a member header. *)
Record stat := mkStat { st_mode : Z; st_uid : Z; st_gid : Z; st_mtime : Z }.

Inductive node :=
| File (st : stat) (data : list byte)
| Dir.

Abbreviation FS := (gmap string node).

(** A member of a tar archive: the header attributes of its
    [tarfile.TarInfo] and its content.  [te_stat] is what [tarfile] copies
    from [os.stat] (mode, uid, gid, mtime); the names of the owner and of
    the group come from the user and group databases, the type and the
    link name from the kind of file. *)
Record TarEntry := mkEntry {
  te_name : string;
  te_stat : stat;
  te_size : Z;
  te_type : string;
  te_linkname : string;
  te_uname : string;
  te_gname : string;
  te_devmajor : Z;
  te_devminor : Z;
  te_pax_headers : list (string * string);
  te_data : list byte
}.

(** The header [tarfile.TarInfo(name)] starts from. *)
Definition TarInfo_default : stat := mkStat 420 0 0 0.

(** [tarfile.REGTYPE], [tarfile.DIRTYPE] *)
Definition REGTYPE : string := "0".
Definition DIRTYPE : string := "5".

(** [tarfile.TarInfo(name)], with no content yet. *)
Definition TarInfo (name : string) : TarEntry :=
  mkEntry name TarInfo_default 0 REGTYPE "" "" "" 0 0 [] [].

(** [tarinfo.size = len(value); tf.addfile(tarinfo, BytesIO(value))] *)
Definition with_content (tarinfo : TarEntry) (value : list byte) : TarEntry :=
  mkEntry (te_name tarinfo) (te_stat tarinfo) (Z.of_nat (length value))
    (te_type tarinfo) (te_linkname tarinfo) (te_uname tarinfo) (te_gname tarinfo)
    (te_devmajor tarinfo) (te_devminor tarinfo) (te_pax_headers tarinfo) value.

(** ** History of the calls that leave the client *)

Inductive Event :=
| EvExists (path : string) (found : bool)
| EvMkstemp (path : string)
| EvTarWrite (path : string) (members : list TarEntry)
| EvGlobbedSize (path : string) (size : Z)
| EvRead (path : string)
| EvSendFile (path name : string) (assignTo : list (string * string)) (ok : bool)
| EvUnlink (path : string)
| EvRmdir (path : string)
| EvMkdtemp (path : string)
| EvGetFile (seName sePFN localPath : string) (ok : bool)
| EvGetcwd
| EvMkDir (path : string)
| EvExtract (member dest : string)
| EvWarn (msg : string)
| EvGetSandboxesAssignedToEntity (eId : string)
| EvRpcAssign (eId : string) (sbList : list (string * string)) (ownerName ownerGroup : string)
| EvSmdbAssign (eId : string) (sbList : list (string * string)) (ownerName ownerGroup : string)
| EvUnassignEntities (entities : list string).

Record World := mkWorld { fs : FS; history : list Event }.

(** ** Collaborators

    Everything the client calls and this repository does not define in the
    file under study: the Python library ([hashlib], [tarfile], [tempfile],
    [os]), the DIRAC utilities, the transfer client, the storage element
    and the RPC service.  Each is a function of the whole world, history
    included, so a collaborator may answer differently from one call to the
    next; none of them can rewrite the history. *)
Record Env := mkEnv {
  (* hashlib.md5 *)
  md5_state : Type;
  md5_new : md5_state;
  md5_update : md5_state -> list byte -> md5_state;
  md5_hexdigest : md5_state -> string;
  (* tarfile: what tf.add(name, arcname, recursive=True) appends or raises,
     the bytes of a closed archive, the bytes left when the writer is
     abandoned after some members *)
  tar_add : World -> string -> string -> list TarEntry + PyExn;
  tar_bz2 : list TarEntry -> list byte;
  tar_aborted : World -> list TarEntry -> list byte;
  tar_open : World -> string -> list TarEntry + PyExn;
  tar_extract : World -> TarEntry -> string -> FS + PyExn;
  (* os, tempfile *)
  realpath : World -> string -> string;
  mkstemp_name : World -> string -> string + PyExn;
  mkdtemp_name : World -> string -> string + PyExn;
  new_stat : World -> stat;
  getcwd : World -> string;
  (* DIRAC.Core.Utilities.File *)
  getGlobbedTotalSize : World -> string -> Z;
  mkDir : World -> string -> FS;
  (* TransferClient *)
  sendFile : World -> string -> string -> list (string * string) -> Result;
  (* StorageElement(seName, vo).getFile, through returnSingleResult *)
  se_getFile : World -> option string -> string -> string -> string -> Result * FS;
  (* SandboxStore service and SandboxMetadataDB *)
  rpc_getSandboxesAssignedToEntity :
    World -> string -> string + gmap string (list string);
  rpc_assignSandboxesToEntities :
    World -> string -> list (string * string) -> string -> string -> Result;
  smdb_assignSandboxesToEntities :
    World -> string -> list (string * string) -> string -> string -> Result;
  rpc_unassignEntities : World -> list string -> Result
}.

(** ** The monad of client code: state, history and exceptions *)

Inductive Outcome (A : Type) :=
| Done (a : A)
| Raised (e : PyExn).
Arguments Done {A} a.
Arguments Raised {A} e.

Definition M (A : Type) : Type := World -> Outcome A * World.

Definition ret {A} (a : A) : M A := fun w => (Done a, w).

Definition bind {A B} (m : M A) (k : A -> M B) : M B :=
  fun w => match m w with
           | (Done a, w') => k a w'
           | (Raised e, w') => (Raised e, w')
           end.

Definition raise {A} (e : PyExn) : M A := fun w => (Raised e, w).

#[global] Instance M_ret : MRet M := @ret.
#[global] Instance M_bind : MBind M := fun A B k m => bind m k.

Definition emit (ev : Event) : M unit :=
  fun w => (Done tt, mkWorld (fs w) (history w ++ [ev])).

Definition get_world : M World := fun w => (Done w, w).

Definition put_fs (f : FS) : M unit :=
  fun w => (Done tt, mkWorld f (history w)).

(** [try: m except <caught> as e: handler e] *)
Definition try_except {A} (m : M A) (caught : PyExn -> bool) (handler : PyExn -> M A) : M A :=
  fun w => match m w with
           | (Raised e, w') => if caught e then handler e w' else (Raised e, w')
           | done => done
           end.

(** [try: m finally: fin]: an exception of [fin] replaces the outcome of [m]. *)
Definition try_finally {A} (m : M A) (fin : M unit) : M A :=
  fun w => match m w with
           | (o, w') => match fin w' with
                        | (Done _, w'') => (o, w'')
                        | (Raised e, w'') => (Raised e, w'')
                        end
           end.

Definition lift_exn {A} (r : A + PyExn) : M A :=
  match r with
  | inl a => ret a
  | inr e => raise e
  end.

(** ** System calls on the modelled file system *)

Section OS.
Context (env : Env).

(** [os.path.exists(path)] *)
Definition os_path_exists (path : string) : M bool :=
  w ← get_world;
  let found := bool_decide (is_Some (fs w !! path)) in
  _ ← emit (EvExists path found);
  mret found.

(** [fd, path = tempfile.mkstemp(prefix=...); os.close(fd)]: an empty
    regular file is created under a name chosen by the library. *)
Definition os_mkstemp (prefix : string) : M string :=
  w ← get_world;
  path ← lift_exn (mkstemp_name env w prefix);
  _ ← put_fs (<[path := File (new_stat env w) []]> (fs w));
  _ ← emit (EvMkstemp path);
  mret path.

(** [tempfile.mkdtemp(prefix=...)] *)
Definition os_mkdtemp (prefix : string) : M string :=
  w ← get_world;
  path ← lift_exn (mkdtemp_name env w prefix);
  _ ← put_fs (<[path := Dir]> (fs w));
  _ ← emit (EvMkdtemp path);
  mret path.

(** [open(path, "rb").read()] *)
Definition os_read (path : string) : M (list byte) :=
  w ← get_world;
  _ ← emit (EvRead path);
  match fs w !! path with
  | Some (File _ data) => mret data
  | Some Dir => raise IsADirectoryError
  | None => raise FileNotFoundError
  end.

(** [os.unlink(path)] *)
Definition os_unlink (path : string) : M unit :=
  w ← get_world;
  _ ← emit (EvUnlink path);
  match fs w !! path with
  | Some (File _ _) => put_fs (delete path (fs w))
  | Some Dir => raise IsADirectoryError
  | None => raise FileNotFoundError
  end.

(** The entries of the file system that live under directory [d]. *)
Definition children (f : FS) (d : string) : list string :=
  filter (fun p => String.prefix (d +:+ "/") p = true) (map fst (map_to_list f)).

(** [os.rmdir(path)]: only an empty directory can be removed. *)
Definition os_rmdir (path : string) : M unit :=
  w ← get_world;
  _ ← emit (EvRmdir path);
  match fs w !! path with
  | Some Dir =>
      match children (fs w) path with
      | [] => put_fs (delete path (fs w))
      | _ :: _ => raise DirectoryNotEmpty
      end
  | Some (File _ _) => raise NotADirectoryError
  | None => raise FileNotFoundError
  end.

End OS.

(** ** The client *)

(** An element of [fileList]: a [str], a [StringIO] with its text, or an
    object of any other type (with [str(type(x))] and [repr(x)]). *)
Inductive FileItem :=
| FStr (s : string)
| FStringIO (text : string)
| FOther (type_text repr_text : string).

(** The [fileList] argument: a list or tuple, or anything else. *)
Inductive FileList :=
| FLSeq (items : list FileItem)
| FLOther.

(** The attributes of a [SandboxStoreClient] that the methods read:
    [self.__vo] and whether the class attribute [__smdb] holds a
    [SandboxMetadataDB]. *)
Record Client := mkClient { vo : option string; smdb : bool }.

(** [bData = fd.read(10240)] *)
Definition chunk_size : nat := Z.to_nat 10240.

Section SandboxStoreClient.
Context (env : Env) (self : Client).

Definition validSandboxTypes : list string := ["Input"; "Output"].

(** [t in self.__validSandboxTypes] *)
Definition valid_type (t : string) : bool :=
  existsb (String.eqb t) validSandboxTypes.

(** Lines 95-97: [for key in assignTo], in insertion order. *)
Fixpoint checkAssignTo (assignTo : list (string * string)) : option Result :=
  match assignTo with
  | [] => None
  | (_, sbType) :: rest =>
      if valid_type sbType then checkAssignTo rest
      else Some (S_ERROR ("Invalid sandbox type " +:+ sbType))
  end.

(** Lines 102-115: the loop that sorts [fileList] into [files2Upload] and
    [errorFiles]; [inl] is the [return] from inside the loop. *)
Fixpoint scanFileList (fileList : list FileItem)
    (files2Upload : list FileItem) (errorFiles : list string)
    : M (Result + list FileItem * list string) :=
  match fileList with
  | [] => mret (inr (files2Upload, errorFiles))
  | FStr sFile :: rest =>
      if PyStr.search_start_ignorecase "lfn:" sFile then
        scanFileList rest files2Upload errorFiles
      else
        found ← os_path_exists sFile;
        if found : bool then scanFileList rest (files2Upload ++ [FStr sFile]) errorFiles
        else scanFileList rest files2Upload (errorFiles ++ [sFile])
  | FStringIO text :: rest =>
      scanFileList rest (files2Upload ++ [FStringIO text]) errorFiles
  | FOther ty _ :: _ =>
      mret (inl (S_ERROR ("Objects of type " +:+ ty +:+ " can't be part of InputSandbox")))
  end.

(** Lines 127-136: the members handed to the tar writer, and how the loop
    is left: at its end ([inl None]), by the [return] of line 136
    ([inl (Some result)]) or by an exception of [tf.add] ([inr e]). *)
Fixpoint addMembers (w : World) (files2Upload : list FileItem) (tf : list TarEntry)
    : list TarEntry * (option Result + PyExn) :=
  match files2Upload with
  | [] => (tf, inl None)
  | FStr sFile :: rest =>
      match tar_add env w (realpath env w sFile) (OsPath.basename sFile) with
      | inl members => addMembers w rest (tf ++ members)
      | inr e => (tf, inr e)
      end
  | FStringIO text :: rest =>
      let tarInfo := TarInfo "jobDescription.xml" in
      let value := PyStr.encode text in
      addMembers w rest (tf ++ [with_content tarInfo value])
  | FOther _ r :: _ => (tf, inl (Some (S_ERROR ("Unknown type to upload: " +:+ r))))
  end.

(** Line 126: [with tarfile.open(name=tmpFilePath, mode="w|bz2") as tf].
    Leaving the block at its end or by [return] closes the archive; an
    exception leaves it with the file closed and the archive unfinished,
    and goes on to the caller. *)
Definition writeArchive (tmpFilePath : string) (files2Upload : list FileItem)
    : M (option Result) :=
  w ← get_world;
  match addMembers w files2Upload [] with
  | (tf, inl early) =>
      _ ← put_fs (<[tmpFilePath := File (new_stat env w) (tar_bz2 env tf)]> (fs w));
      _ ← emit (EvTarWrite tmpFilePath tf);
      mret early
  | (tf, inr e) =>
      _ ← put_fs (<[tmpFilePath := File (new_stat env w) (tar_aborted env w tf)]> (fs w));
      raise e
  end.

(** Lines 147-150: the [while bData] loop over the open file; [rest] is
    what the file object has not returned yet. *)
Fixpoint md5_stream (fuel : nat) (oMD5 : md5_state env) (rest : list byte)
    : md5_state env :=
  match fuel with
  | O => oMD5
  | S fuel' =>
      match take chunk_size rest with
      | [] => oMD5
      | bData => md5_stream fuel' (md5_update env oMD5 bData) (drop chunk_size rest)
      end
  end.

(** Lines 145-150 *)
Definition fileDigest (tmpFilePath : string) : M string :=
  data ← os_read tmpFilePath;
  mret (md5_hexdigest env (md5_stream (S (length data)) (md5_new env) data)).

(** Lines 138-143: [Some result] is the [return result]. *)
Definition sizeGuard (tmpFilePath : string) (sizeLimit : Z) : M (option Result) :=
  if sizeLimit >? 0 then
    w ← get_world;
    let size := getGlobbedTotalSize env w tmpFilePath in
    _ ← emit (EvGlobbedSize tmpFilePath size);
    if size >? sizeLimit then
      mret (Some (set_SandboxFileName (S_ERROR "Size over the limit") tmpFilePath))
    else mret None
  else mret None.

(** Lines 152-160 *)
Definition sendAndCleanup (tmpFilePath digest : string)
    (assignTo : list (string * string)) : M Result :=
  w ← get_world;
  let name := digest +:+ ".tar.bz2" in
  let result := sendFile env w tmpFilePath name assignTo in
  _ ← emit (EvSendFile tmpFilePath name assignTo (OK result));
  let result := set_SandboxFileName result tmpFilePath in
  _ ← try_except
        (if OK result then os_unlink tmpFilePath else mret tt)
        is_OSError (fun _ => mret tt);
  mret result.

(** Lines 126-160: the archive, the size guard, the digest and the
    transfer, once the staging file exists. *)
Definition bundleAndSend (tmpFilePath : string) (files2Upload : list FileItem)
    (sizeLimit : Z) (assignTo : list (string * string)) : M Result :=
  early ← writeArchive tmpFilePath files2Upload;
  match early with
  | Some err => mret err
  | None =>
  over ← sizeGuard tmpFilePath sizeLimit;
  match over with
  | Some err => mret err
  | None =>
  digest ← fileDigest tmpFilePath;
  sendAndCleanup tmpFilePath digest assignTo
  end end.

Definition uploadFilesAsSandbox (fileList : FileList) (sizeLimit : Z)
    (assignTo : option (list (string * string))) : M Result :=
  let assignTo := default [] assignTo in
  match checkAssignTo assignTo with
  | Some err => mret err
  | None =>
  match fileList with
  | FLOther => mret (S_ERROR "fileList must be a list or tuple!")
  | FLSeq fileList =>
  scanned ← scanFileList fileList [] [];
  match scanned with
  | inl err => mret err
  | inr (files2Upload, errorFiles) =>
  match errorFiles with
  | _ :: _ => mret (S_ERROR ("Failed to locate files: " +:+ PyStr.join ", " errorFiles))
  | [] =>
  created ← try_except (path ← os_mkstemp env "LDSB."; mret (inl path)) is_Exception
              (fun e => mret (inr (S_ERROR ("Cannot create temporary file: " +:+ repr e))));
  match created with
  | inr err => mret err
  | inl tmpFilePath => bundleAndSend tmpFilePath files2Upload sizeLimit assignTo
  end end end end end.

(** [uploadFilesAsSandboxForJob]; [jobId] is the text the f-string writes. *)
Definition uploadFilesAsSandboxForJob (fileList : FileList) (jobId sbType : string)
    (sizeLimit : Z) : M Result :=
  if negb (valid_type sbType) then mret (S_ERROR ("Invalid Sandbox type " +:+ sbType))
  else uploadFilesAsSandbox fileList sizeLimit (Some [("Job:" +:+ jobId, sbType)]).

(** Lines 169-176: the location parse at the head of [downloadSandbox];
    [inl] is the [return S_ERROR(...)]. *)
Definition parseLocation (sbLocation : string) : Result + string * string :=
  if negb (PyStr.find sbLocation "SB:" =? 0) then inl (S_ERROR "Invalid sandbox URL")
  else
    let sbLocation := PyStr.slice_from 3 sbLocation in
    let sbSplit := PyStr.split "|" sbLocation in
    if (Z.of_nat (length sbSplit) <? 2) then inl (S_ERROR "Invalid sandbox URL")
    else
      let seName := hd "" sbSplit in
      let sePFN := PyStr.join "|" (tl sbSplit) in
      inr (seName, sePFN).

(** Lines 218-220: [for tarinfo in tf] *)
Fixpoint extractAll (members : list TarEntry) (destinationDir : string)
    (sandboxSize : Z) : M Z :=
  match members with
  | [] => mret sandboxSize
  | tarinfo :: rest =>
      w ← get_world;
      _ ← emit (EvExtract (te_name tarinfo) destinationDir);
      f ← lift_exn (tar_extract env w tarinfo destinationDir);
      _ ← put_fs f;
      extractAll rest destinationDir (sandboxSize + te_size tarinfo)
  end.

(** Lines 227-231 *)
Definition removeTemporaries (tarFileName tmpSBDir : string) : M unit :=
  try_except
    (_ ← os_unlink tarFileName; os_rmdir tmpSBDir)
    is_OSError
    (fun e => emit (EvWarn ("Could not remove temporary dir " +:+ tmpSBDir
                             +:+ ": " +:+ repr e))).

(** Lines 204-209: [os.getcwd()] when no destination is given, [mkDir]
    otherwise. *)
Definition resolveDestination (destinationDir : string) : M string :=
  if String.eqb destinationDir "" then
    w ← get_world; _ ← emit EvGetcwd; mret (getcwd env w)
  else
    w ← get_world;
    _ ← put_fs (mkDir env w destinationDir);
    _ ← emit (EvMkDir destinationDir);
    mret destinationDir.

(** Lines 190-233: what [downloadSandbox] does with the fetched archive
    [tarFileName] in [tmpSBDir]. *)
Definition deliver (tarFileName tmpSBDir destinationDir : string)
    (inMemory unpack : bool) : M Result :=
  let result := S_OK VNone in
  if inMemory then
    try_finally
      (try_except
         (data ← os_read tarFileName; mret (S_OK (VBytes data)))
         is_OSError
         (fun e => mret (S_ERROR ("Failed to read the sandbox archive: " +:+ repr e))))
      (_ ← os_unlink tarFileName; os_rmdir tmpSBDir)
  else
    destinationDir ← resolveDestination destinationDir;
    if negb unpack then mret (set_Value result (VStr tarFileName))
    else
      result ← try_except
                 (w ← get_world;
                  tf ← lift_exn (tar_open env w tarFileName);
                  sandboxSize ← extractAll tf destinationDir 0;
                  mret (set_Value result (VInt sandboxSize)))
                 is_OSError
                 (fun e => mret (S_ERROR ("Could not open bundle: " +:+ repr e)));
      _ ← removeTemporaries tarFileName tmpSBDir;
      mret result.

(** Lines 183-191: the fetch into the temporary directory. *)
Definition fetchInto (seName sePFN tmpSBDir destinationDir : string)
    (inMemory unpack : bool) : M Result :=
  w ← get_world;
  let '(result, f) := se_getFile env w (vo self) seName sePFN tmpSBDir in
  _ ← put_fs f;
  _ ← emit (EvGetFile seName sePFN tmpSBDir (OK result));
  if negb (OK result) then mret result
  else
    let sbFileName := OsPath.basename sePFN in
    let tarFileName := OsPath.join tmpSBDir sbFileName in
    deliver tarFileName tmpSBDir destinationDir inMemory unpack.

Definition downloadSandbox (sbLocation destinationDir : string)
    (inMemory unpack : bool) : M Result :=
  match parseLocation sbLocation with
  | inl err => mret err
  | inr (seName, sePFN) =>
      created ← try_except (path ← os_mkdtemp env "TMSB."; mret (inl path)) is_OSError
                  (fun e => mret (inr (S_ERROR ("Cannot create temporary file: " +:+ repr e))));
      match created with
      | inr err => mret err
      | inl tmpSBDir => fetchInto seName sePFN tmpSBDir destinationDir inMemory unpack
      end
  end.

(** Lines 245-247: [for sbT in sbList], looking at [sbT[1]]. *)
Fixpoint checkSbList (sbList : list (string * string)) : option Result :=
  match sbList with
  | [] => None
  | sbT :: rest =>
      if valid_type (snd sbT) then checkSbList rest
      else Some (S_ERROR ("Invalid Sandbox type " +:+ snd sbT))
  end.

(** Truth value of a [str] *)
Definition truthy (s : string) : bool := negb (String.eqb s "").

Definition assignSandboxesToJob (jobId : string) (sbList : list (string * string))
    (ownerName ownerGroup : string) : M Result :=
  let eId := "Job:" +:+ jobId in
  match checkSbList sbList with
  | Some err => mret err
  | None =>
      w ← get_world;
      if (smdb self && truthy ownerName && truthy ownerGroup)%bool then
        _ ← emit (EvSmdbAssign eId sbList ownerName ownerGroup);
        mret (smdb_assignSandboxesToEntities env w eId sbList ownerName ownerGroup)
      else
        _ ← emit (EvRpcAssign eId sbList ownerName ownerGroup);
        mret (rpc_assignSandboxesToEntities env w eId sbList ownerName ownerGroup)
  end.

(** [unassignJobs]: [inl] is a single [int], [inr] a list; ids are given
    by the text the f-string writes. *)
Definition unassignJobs (jobIdList : string + list string) : M Result :=
  let jobIdList := match jobIdList with inl jobId => [jobId] | inr l => l end in
  let entitiesList := map (fun jobId => "Job:" +:+ jobId) jobIdList in
  w ← get_world;
  _ ← emit (EvUnassignEntities entitiesList);
  mret (rpc_unassignEntities env w entitiesList).

(** Lines 281-286: the loop over [sbDict[sbType]] *)
Fixpoint downloadEach (locations : list string) (destinationPath : string)
    (inMemory unpack : bool) (downloadedSandboxesLoc : list PyVal) : M Result :=
  match locations with
  | [] => mret (S_OK (VList downloadedSandboxesLoc))
  | sbLocation :: rest =>
      result ← downloadSandbox sbLocation destinationPath inMemory unpack;
      if negb (OK result) then mret result
      else downloadEach rest destinationPath inMemory unpack
             (downloadedSandboxesLoc ++ [Value result])
  end.

Definition noSandboxMessage (sbType jobId : string) : string :=
  "No " +:+ sbType +:+ " sandbox found for job " +:+ jobId +:+ ". "
  +:+ "Possible causes are: the job does not exist, no sandbox was "
  +:+ "registered or you do not have permission to access it.".

Definition downloadSandboxForJob (jobId sbType destinationPath : string)
    (inMemory unpack : bool) : M Result :=
  w ← get_world;
  _ ← emit (EvGetSandboxesAssignedToEntity ("Job:" +:+ jobId));
  match rpc_getSandboxesAssignedToEntity env w ("Job:" +:+ jobId) with
  | inl message => mret (S_ERROR message)
  | inr sbDict =>
      match sbDict !! sbType with
      | None => mret (S_ERROR (noSandboxMessage sbType jobId))
      | Some locations =>
          if inMemory then
            match last locations with
            | None => raise (IndexError "list index out of range")
            | Some sbLocation =>
                downloadSandbox sbLocation destinationPath inMemory unpack
            end
          else downloadEach locations destinationPath inMemory unpack []
      end
  end.

End SandboxStoreClient.

(** ** A reference platform

    An executable instance of the collaborators, used to run the client on
    concrete inputs: files are read from the modelled file system, the
    archive is the concatenation of its members' names, modification times
    and contents, and the digest is the hexadecimal dump of what was fed to
    it (a stand-in for MD5 that never collides). *)

Module Sim.

Record Setup := mkSetup {
  transfer_ok : bool;
  remote_store : string -> string -> option (list byte);
  archive_members : list TarEntry;
  assigned : string -> string + gmap string (list string)
}.

Definition hex_digit (n : nat) : ascii :=
  nth n (list_ascii_of_string "0123456789abcdef") "0"%char.

Fixpoint hex (data : list byte) : string :=
  match data with
  | [] => ""
  | b :: rest =>
      let n := Byte.to_nat b in
      String (hex_digit (n / 16)) (String (hex_digit (n mod 16)) (hex rest))
  end.

Definition decimal (n : Z) : string := pretty.pretty n.

Definition serialize (members : list TarEntry) : list byte :=
  flat_map (fun m => (PyStr.encode (te_name m)
                      ++ PyStr.encode (decimal (st_mtime (te_stat m)))
                      ++ PyStr.encode (te_uname m)
                      ++ te_data m)%list) members.

(** A regular file as [tarfile] records it for a user called [dirac]. *)
Definition member (arcname : string) (st : stat) (data : list byte) : TarEntry :=
  mkEntry arcname st (Z.of_nat (length data)) REGTYPE "" "dirac" "dirac" 0 0 [] data.

(** [tf.add]: a file without any permission bit cannot be read, a directory
    is recorded without what it holds. *)
Definition add_file (w : World) (real arcname : string) : list TarEntry + PyExn :=
  match fs w !! real with
  | Some (File st data) =>
      if st_mode st =? 0 then inr PermissionError else inl [member arcname st data]
  | Some Dir =>
      inl [mkEntry arcname (mkStat 493 0 0 0) 0 DIRTYPE "" "dirac" "dirac" 0 0 [] []]
  | None => inr FileNotFoundError
  end.

Definition fresh (w : World) (prefix : string) : string :=
  "/tmp/" +:+ prefix +:+ decimal (Z.of_nat (length (history w))).

Definition file_size (w : World) (path : string) : Z :=
  match fs w !! path with
  | Some (File _ data) => Z.of_nat (length data)
  | _ => 0
  end.

Definition get_file (s : Setup) (w : World) (v : option string)
    (seName sePFN localPath : string) : Result * FS :=
  match remote_store s seName sePFN with
  | Some data =>
      (S_OK VNone,
       <[OsPath.join localPath (OsPath.basename sePFN) := File (mkStat 420 0 0 0) data]> (fs w))
  | None => (S_ERROR "File does not exist", fs w)
  end.

Definition open_archive (s : Setup) (w : World) (path : string) : list TarEntry + PyExn :=
  match fs w !! path with
  | Some (File _ _) => inl (archive_members s)
  | Some Dir => inr IsADirectoryError
  | None => inr FileNotFoundError
  end.

Definition extract (w : World) (m : TarEntry) (dest : string) : FS + PyExn :=
  inl (<[OsPath.join dest (te_name m) := File (te_stat m) (te_data m)]> (fs w)).

Definition env (s : Setup) : Env := {|
  md5_state := list byte;
  md5_new := [];
  md5_update := fun h data => (h ++ data)%list;
  md5_hexdigest := hex;
  tar_add := add_file;
  tar_bz2 := serialize;
  tar_aborted := fun _ => serialize;
  tar_open := open_archive s;
  tar_extract := extract;
  realpath := fun _ p => p;
  mkstemp_name := fun w prefix => inl (fresh w prefix);
  mkdtemp_name := fun w prefix => inl (fresh w prefix);
  new_stat := fun _ => mkStat 384 0 0 0;
  getcwd := fun _ => "/home/user";
  getGlobbedTotalSize := file_size;
  mkDir := fun w p => <[p := Dir]> (fs w);
  sendFile := fun _ _ _ _ =>
    if transfer_ok s then S_OK VNone else S_ERROR "Error while sending file";
  se_getFile := get_file s;
  rpc_getSandboxesAssignedToEntity := fun _ eId => assigned s eId;
  rpc_assignSandboxesToEntities := fun _ _ _ _ _ => S_OK VNone;
  smdb_assignSandboxesToEntities := fun _ _ _ _ _ => S_OK VNone;
  rpc_unassignEntities := fun _ _ => S_OK VNone
|}.

Definition client : Client := mkClient None false.

Definition text (s : string) : list byte := PyStr.encode s.

(** A disk with [a.txt] = "hello" written at time [t] and [b.txt] = "world". *)
Definition disk (t : Z) : World :=
  mkWorld (<["a.txt" := File (mkStat 420 1000 1000 t) (text "hello")]>
           (<["b.txt" := File (mkStat 420 1000 1000 7) (text "world")]> ∅)) [].

Definition plain : Setup :=
  mkSetup true (fun _ _ => None) [] (fun _ => inr ∅).

(** The same platform with a transfer service that refuses every file. *)
Definition failing : Setup :=
  mkSetup false (fun _ _ => None) [] (fun _ => inr ∅).

(** A platform whose storage element [SE] holds two bundles and whose
    service knows three output sandboxes of job 42, the second of which is
    not in the storage element. *)
Definition stocked : Setup :=
  mkSetup true
    (fun seName sePFN =>
       if (String.eqb sePFN "/sb/1.tar.bz2" || String.eqb sePFN "/sb/2.tar.bz2")%bool
       then Some (text "bundle") else None)
    [member "a.txt" TarInfo_default (text "hello")]
    (fun eId =>
       if String.eqb eId "Job:42"
       then inr (<["Output" := ["SB:SE|/sb/1.tar.bz2"; "SB:SE|/sb/3.tar.bz2";
                                "SB:SE|/sb/2.tar.bz2"]]> ∅)
       else inr ∅).

(** A disk on which something already happened. *)
Definition later (t : Z) : World := mkWorld (fs (disk t)) [EvGetcwd].


End Sim.

(** ** The reference platform with injected failures *)

Module Faulty.

Record Faults := mkFaults {
  mkstemp_fault : option PyExn;
  mkdtemp_fault : option PyExn;
  open_fault : option PyExn
}.

Definition none : Faults := mkFaults None None None.

Definition or_fault {A} (fault : option PyExn) (r : A + PyExn) : A + PyExn :=
  match fault with
  | Some e => inr e
  | None => r
  end.

(** [Sim.env s] in which the calls named by [fl] raise. *)
Definition env (s : Sim.Setup) (fl : Faults) : Env :=
  let e := Sim.env s in
  mkEnv (md5_state e) (md5_new e) (md5_update e) (md5_hexdigest e)
    (tar_add e) (tar_bz2 e) (tar_aborted e)
    (fun w path => or_fault (open_fault fl) (tar_open e w path))
    (tar_extract e) (realpath e)
    (fun w prefix => or_fault (mkstemp_fault fl) (mkstemp_name e w prefix))
    (fun w prefix => or_fault (mkdtemp_fault fl) (mkdtemp_name e w prefix))
    (new_stat e) (getcwd e) (getGlobbedTotalSize e) (mkDir e) (sendFile e)
    (se_getFile e) (rpc_getSandboxesAssignedToEntity e)
    (rpc_assignSandboxesToEntities e) (smdb_assignSandboxesToEntities e)
    (rpc_unassignEntities e).

(** [Sim.env s] with a storage element that reports a success and has
    written nothing. *)
Definition silent (s : Sim.Setup) : Env :=
  let e := Sim.env s in
  mkEnv (md5_state e) (md5_new e) (md5_update e) (md5_hexdigest e)
    (tar_add e) (tar_bz2 e) (tar_aborted e) (tar_open e) (tar_extract e) (realpath e)
    (mkstemp_name e) (mkdtemp_name e)
    (new_stat e) (getcwd e) (getGlobbedTotalSize e) (mkDir e) (sendFile e)
    (fun w _ _ _ _ => (S_OK VNone, fs w))
    (rpc_getSandboxesAssignedToEntity e)
    (rpc_assignSandboxesToEntities e) (smdb_assignSandboxesToEntities e)
    (rpc_unassignEntities e).

End Faulty.

(** ** Vocabulary of the statements *)

(** [fileList] elements that are skipped as logical file names. *)
Definition is_lfn (item : FileItem) : bool :=
  match item with
  | FStr s => PyStr.search_start_ignorecase "lfn:" s
  | _ => false
  end.

(** The local paths named by [fileList], in order. *)
Definition localPaths (items : list FileItem) : list string :=
  flat_map (fun item => match item with
                        | FStr s => if is_lfn item then [] else [s]
                        | _ => []
                        end) items.

Definition exists_in (f : FS) (path : string) : bool :=
  bool_decide (is_Some (f !! path)).

(** The local paths of [fileList] that are not on disk. *)
Definition missingPaths (f : FS) (items : list FileItem) : list string :=
  filter (fun p => exists_in f p = false) (localPaths items).

(** [fileList] elements of a supported type. *)
Definition supported (item : FileItem) : bool :=
  match item with
  | FOther _ _ => false
  | _ => true
  end.

(** The fetches recorded in a history: backend and physical name. *)
Definition fetched (evs : list Event) : list (string * string) :=
  flat_map (fun ev => match ev with
                      | EvGetFile seName sePFN _ _ => [(seName, sePFN)]
                      | _ => []
                      end) evs.

Definition is_EvExists (ev : Event) : Prop :=
  match ev with EvExists _ _ => True | _ => False end.

(** [format(backendId, physicalName)] of the location descriptor. *)
Definition formatLocation (seName sePFN : string) : string :=
  "SB:" +:+ seName +:+ "|" +:+ sePFN.

(** The elements of [fileList] that end in [files2Upload]. *)
Definition uploadable (f : FS) (item : FileItem) : bool :=
  match item with
  | FStr s => negb (is_lfn item) && exists_in f s
  | FStringIO _ => true
  | FOther _ _ => false
  end.

(** The digest of lines 145-150 for a file holding [data]. *)
Definition digestOf (env : Env) (data : list byte) : string :=
  md5_hexdigest env (md5_stream env (S (length data)) (md5_new env) data).

(** The calls made by the size guard: none without a positive limit, one
    measure within the limit otherwise. *)
Inductive size_checked (sizeLimit : Z) (path : string) : list Event -> Prop :=
| size_unchecked : sizeLimit <= 0 -> size_checked sizeLimit path []
| size_within n : 0 < sizeLimit -> n <= sizeLimit ->
    size_checked sizeLimit path [EvGlobbedSize path n].

(** The world once [fileList] has been scanned: every local path has been
    looked up, nothing else has happened. *)
Definition scanned (w : World) (items : list FileItem) : World :=
  mkWorld (fs w)
    (history w ++ map (fun p => EvExists p (exists_in (fs w) p)) (localPaths items)).

(** The world once [mkstemp] has created the staging file at [p]. *)
Definition staged (env : Env) (w : World) (items : list FileItem) (p : string) : World :=
  mkWorld (<[p := File (new_stat env (scanned w items)) []]> (fs w))
    (history (scanned w items) ++ [EvMkstemp p]).

(** The world once the archive with members [tf] has been written at [p]
    and closed, the staging file having been created in [w2]. *)
Definition archived (env : Env) (w2 : World) (p : string) (tf : list TarEntry) : World :=
  mkWorld (<[p := File (new_stat env w2) (tar_bz2 env tf)]> (fs w2))
    (history w2 ++ [EvTarWrite p tf]).

(** The world once the size of the archive at [p] has been measured in [w3]. *)
Definition measured (env : Env) (w3 : World) (p : string) : World :=
  mkWorld (fs w3) (history w3 ++ [EvGlobbedSize p (getGlobbedTotalSize env w3 p)]).

(** The world in which the transfer service is called: after the calls
    [sizeEvs] of the size guard and the reading of the archive. *)
Definition sending (w3 : World) (p : string) (sizeEvs : list Event) : World :=
  mkWorld (fs w3) (history w3 ++ sizeEvs ++ [EvRead p]).

(** The calls made in [w3] by a size guard that lets the archive through:
    none without a positive limit, one measure within the limit otherwise. *)
Inductive size_passed (env : Env) (sizeLimit : Z) (p : string) (w3 : World)
    : list Event -> Prop :=
| not_measured : sizeLimit <= 0 -> size_passed env sizeLimit p w3 []
| measured_within :
    0 < sizeLimit -> getGlobbedTotalSize env w3 p <= sizeLimit ->
    size_passed env sizeLimit p w3 [EvGlobbedSize p (getGlobbedTotalSize env w3 p)].

(** The elements of [fileList] that the scan puts in [files2Upload]. *)
Definition files2Upload (f : FS) (items : list FileItem) : list FileItem :=
  filter (fun i => uploadable f i = true) items.

(** The ways out of lines 126-160, run in the world [w2] in which the
    staging file has been created at [p], with [files] to archive: an
    exception of [tf.add], the size guard, or the return after the
    transfer. *)
Inductive bundle_exit (env : Env) (sizeLimit : Z) (assignTo : list (string * string))
    (p : string) (files : list FileItem) (w2 : World) : Outcome Result -> World -> Prop :=
| bundle_aborted tf e :
    addMembers env w2 files [] = (tf, inr e) ->
    bundle_exit env sizeLimit assignTo p files w2
      (Raised e)
      (mkWorld (<[p := File (new_stat env w2) (tar_aborted env w2 tf)]> (fs w2))
               (history w2))
| bundle_over_limit tf :
    addMembers env w2 files [] = (tf, inl None) ->
    0 < sizeLimit ->
    sizeLimit < getGlobbedTotalSize env (archived env w2 p tf) p ->
    bundle_exit env sizeLimit assignTo p files w2
      (Done (set_SandboxFileName (S_ERROR "Size over the limit") p))
      (measured env (archived env w2 p tf) p)
| bundle_sent tf sizeEvs :
    addMembers env w2 files [] = (tf, inl None) ->
    size_passed env sizeLimit p (archived env w2 p tf) sizeEvs ->
    let ws := sending (archived env w2 p tf) p sizeEvs in
    let name := digestOf env (tar_bz2 env tf) +:+ ".tar.bz2" in
    let r := sendFile env ws p name assignTo in
    bundle_exit env sizeLimit assignTo p files w2
      (Done (set_SandboxFileName r p))
      (mkWorld (if OK r then delete p (fs ws) else fs ws)
               (history ws ++ [EvSendFile p name assignTo (OK r)]
                  ++ (if OK r then [EvUnlink p] else []))).

(** The ways out of [uploadFilesAsSandbox]: a rejection before the staging
    file exists, an exception of [mkstemp] that is not an [Exception], or
    one of the ways out of lines 126-160 after the staging file has been
    created at [p]. *)
Inductive upload_exit (env : Env) (fileList : FileList) (sizeLimit : Z)
    (assignTo : list (string * string)) (w : World) : Outcome Result -> World -> Prop :=
| exit_rejected evs e :
    Forall is_EvExists evs -> OK e = false -> SandboxFileName e = None ->
    Message e <> "Size over the limit" ->
    upload_exit env fileList sizeLimit assignTo w
      (Done e) (mkWorld (fs w) (history w ++ evs))
| exit_interrupted items e :
    fileList = FLSeq items ->
    mkstemp_name env (scanned w items) "LDSB." = inr e -> is_Exception e = false ->
    upload_exit env fileList sizeLimit assignTo w (Raised e) (scanned w items)
| exit_staged items p o w' :
    fileList = FLSeq items ->
    Forall (fun i => supported i = true) items ->
    missingPaths (fs w) items = [] ->
    mkstemp_name env (scanned w items) "LDSB." = inl p ->
    bundle_exit env sizeLimit assignTo p (files2Upload (fs w) items)
      (staged env w items p) o w' ->
    upload_exit env fileList sizeLimit assignTo w o w'.

(** The successive values of [bData] in the loop of lines 147-150 when the
    file holds [data] and reads return at most [n] bytes. *)
Fixpoint chunks_of (n fuel : nat) (data : list byte) : list (list byte) :=
  match fuel with
  | O => []
  | S fuel' =>
      match take n data with
      | [] => []
      | bData => bData :: chunks_of n fuel' (drop n data)
      end
  end.

Definition chunks (data : list byte) : list (list byte) :=
  chunks_of chunk_size (S (length data)) data.

(** The canonical remote name of an archive with members [tf]. *)
Definition canonicalName (env : Env) (tf : list TarEntry) : string :=
  md5_hexdigest env
    (fold_left (md5_update env) (chunks (tar_bz2 env tf)) (md5_new env))
  +:+ ".tar.bz2".

(** The bytes of the regular file at [path], if there is one. *)
Definition file_data (f : FS) (path : string) : option (list byte) :=
  match f !! path with
  | Some (File _ data) => Some data
  | _ => None
  end.

(** Events of the delivery of a fetched archive that remove nothing. *)
Definition keeps_files (ev : Event) : Prop :=
  match ev with
  | EvGetcwd | EvMkDir _ | EvExtract _ _ | EvRead _ | EvWarn _ => True
  | _ => False
  end.

(** Events that are neither a fetch from a storage element nor the
    creation of a temporary directory. *)
Definition is_local (ev : Event) : Prop :=
  match ev with
  | EvGetFile _ _ _ _ | EvMkdtemp _ => False
  | _ => True
  end.

(** The backend and physical name of each well-formed descriptor. *)
Definition locationsOf (descriptors : list string) : list (string * string) :=
  flat_map (fun d => match parseLocation d with
                     | inr loc => [loc]
                     | inl _ => []
                     end) descriptors.

(** The descriptors are fetched one after the other, each with success:
    the values they give and the world they leave. *)
Inductive fetched_in_order (env : Env) (self : Client) (dest : string) (unpack : bool)
    : list string -> World -> list PyVal -> World -> Prop :=
| fetched_none w : fetched_in_order env self dest unpack [] w [] w
| fetched_next d rest w r w1 vs w2 :
    downloadSandbox env self d dest false unpack w = (Done r, w1) ->
    OK r = true ->
    fetched_in_order env self dest unpack rest w1 vs w2 ->
    fetched_in_order env self dest unpack (d :: rest) w (Value r :: vs) w2.

(** * Properties *)

(** ** The primitives agree with Python on samples *)

Example find_ex1 : PyStr.find "SB:SE|x" "SB:" = 0.
Proof. reflexivity. Qed.
Example find_ex2 : PyStr.find "xSB:SE|x" "SB:" = 1.
Proof. reflexivity. Qed.
Example find_ex3 : PyStr.find "SBSEName|path" "SB:" = -1.
Proof. reflexivity. Qed.
Example split_ex1 : PyStr.split "|" "a|b|c" = ["a"; "b"; "c"].
Proof. reflexivity. Qed.
Example split_ex2 : PyStr.split "|" "" = [""].
Proof. reflexivity. Qed.
Example split_ex3 : PyStr.split "|" "a|" = ["a"; ""].
Proof. reflexivity. Qed.
Example basename_ex1 : OsPath.basename "/a/b/c.tar" = "c.tar".
Proof. reflexivity. Qed.
Example basename_ex2 : OsPath.basename "/a/b/" = "".
Proof. reflexivity. Qed.
Example basename_ex3 : OsPath.basename "c.tar" = "c.tar".
Proof. reflexivity. Qed.
Example lfn_ex1 : PyStr.search_start_ignorecase "lfn:" "LfN:/x" = true.
Proof. reflexivity. Qed.
Example lfn_ex2 : PyStr.search_start_ignorecase "lfn:" " lfn:/x" = false.
Proof. reflexivity. Qed.
Example join_ex1 : OsPath.join "/tmp/T" "x.tar" = "/tmp/T/x.tar".
Proof. reflexivity. Qed.
Example parse_ex1 : parseLocation "SB:SE|/a|b" = inr ("SE", "/a|b").
Proof. reflexivity. Qed.

(** ** Facts about the string primitives *)
Section StringFacts.
Import PyStr.

Lemma find_zero_iff (s sub : string) :
  find s sub = 0 <-> String.prefix sub s = true.
Proof.
  destruct s as [|c s]; cbn [find].
  - destruct (String.prefix sub ""); split; intros; try done.
  - destruct (String.prefix sub (String c s)); [done|].
    split; [|done]. destruct (find s sub <? 0) eqn:E; [done|].
    apply Z.ltb_ge in E. lia.
Qed.

Lemma prefix_SB (s : string) :
  String.prefix "SB:" s = true <-> exists rest, s = "SB:" +:+ rest.
Proof.
  split.
  - intros H. exists (slice_from 3 s).
    destruct s as [|a [|b [|c s]]]; cbn [String.prefix] in H; try discriminate;
      repeat (destruct (ascii_dec _ _) as [<-|]; try discriminate).
    reflexivity.
  - intros [rest ->]. simpl. by destruct rest.
Qed.

Lemma split_not_nil sep s : split sep s <> [].
Proof.
  destruct s as [|c s]; simpl; [done|].
  destruct (Ascii.eqb c sep); [done|]. by destruct (split sep s).
Qed.

Lemma split_cons_sep sep b p :
  has_char sep b = false ->
  split sep (b +:+ String sep p) = b :: split sep p.
Proof.
  induction b as [|c b IH]; simpl; intros H.
  - by rewrite Ascii.eqb_refl.
  - apply orb_false_iff in H as [Hc Hb].
    rewrite Hc, (IH Hb). done.
Qed.

Lemma join_split sep s : join (String sep "") (split sep s) = s.
Proof.
  unfold join. induction s as [|c s IH]; simpl; [done|].
  destruct (Ascii.eqb c sep) eqn:E.
  - apply Ascii.eqb_eq in E as ->.
    pose proof (split_not_nil sep s) as Hn.
    destruct (split sep s) as [|x xs] eqn:Es; [done|].
    simpl in *. by rewrite IH.
  - pose proof (split_not_nil sep s) as Hn.
    destruct (split sep s) as [|x xs] eqn:Es; [done|].
    simpl in *. destruct xs; simpl in *; by rewrite <- IH.
Qed.

Lemma split_hd_no_sep sep s : has_char sep (hd "" (split sep s)) = false.
Proof.
  induction s as [|c s IH]; simpl; [done|].
  destruct (Ascii.eqb c sep) eqn:E; [done|].
  pose proof (split_not_nil sep s) as Hn.
  destruct (split sep s) as [|x xs]; [done|]. simpl in *. by rewrite E.
Qed.

Lemma split_length_has_char sep s :
  (2 <= length (split sep s))%nat <-> has_char sep s = true.
Proof.
  induction s as [|c s IH]; simpl.
  - split; [lia|done].
  - pose proof (split_not_nil sep s) as Hn.
    destruct (Ascii.eqb c sep) eqn:E; simpl.
    + split; [done|]. intros _. destruct (split sep s); [done|simpl; lia].
    + destruct (split sep s) as [|x xs]; [done|]. simpl in *. done.
Qed.

End StringFacts.

(** ** The location descriptor *)

Section LocationCodec.
Import PyStr.

Lemma SB_literal rest : "SB:" +:+ rest = String "S" (String "B" (String ":" rest)).
Proof. reflexivity. Qed.

Lemma bar_literal p : "|" +:+ p = String "|" p.
Proof. reflexivity. Qed.

Lemma has_char_app c a b :
  has_char c (a +:+ b) = (has_char c a || has_char c b)%bool.
Proof.
  induction a as [|x a IH]; [done|].
  change (String x a +:+ b) with (String x (a +:+ b)).
  simpl. rewrite IH. by rewrite orb_assoc.
Qed.

Lemma parseLocation_SB rest :
  parseLocation ("SB:" +:+ rest) =
    if (Z.of_nat (length (split "|" rest)) <? 2)
    then inl (S_ERROR "Invalid sandbox URL")
    else inr (hd "" (split "|" rest), join "|" (tl (split "|" rest))).
Proof.
  unfold parseLocation.
  rewrite (proj2 (find_zero_iff _ _)) by (apply prefix_SB; eauto).
  reflexivity.
Qed.

Lemma parseLocation_not_SB d :
  (forall rest, d <> "SB:" +:+ rest) ->
  parseLocation d = inl (S_ERROR "Invalid sandbox URL").
Proof.
  intros H. unfold parseLocation.
  destruct (find d "SB:" =? 0) eqn:E; [|done].
  apply Z.eqb_eq, find_zero_iff, prefix_SB in E as [rest ->].
  by destruct (H rest).
Qed.

Lemma parseLocation_format b p :
  has_char "|" b = false -> parseLocation (formatLocation b p) = inr (b, p).
Proof.
  intros Hb. unfold formatLocation. rewrite parseLocation_SB, bar_literal.
  rewrite (split_cons_sep _ _ _ Hb).
  pose proof (split_not_nil "|" p) as Hn.
  destruct (split "|" p) as [|x xs] eqn:Es; [done|].
  replace (Z.of_nat (length (b :: x :: xs)) <? 2) with false
    by (symmetry; apply Z.ltb_ge; simpl; lia).
  cbn [hd tl]. by rewrite <- Es, join_split.
Qed.

Lemma parseLocation_inr d b p :
  parseLocation d = inr (b, p) ->
  d = formatLocation b p /\ has_char "|" b = false.
Proof.
  intros H.
  destruct (find d "SB:" =? 0) eqn:E.
  - apply Z.eqb_eq, find_zero_iff, prefix_SB in E as [rest ->].
    rewrite parseLocation_SB in H.
    destruct (Z.of_nat (length (split "|" rest)) <? 2) eqn:El; [done|].
    apply Z.ltb_ge in El. injection H as <- <-.
    split; [|apply split_hd_no_sep].
    unfold formatLocation. f_equal.
    rewrite <- (join_split "|" rest) at 1.
    destruct (split "|" rest) as [|x [|y ys]]; simpl in El; try lia.
    reflexivity.
  - unfold parseLocation in H. by rewrite E in H.
Qed.

Lemma parseLocation_inl d e :
  parseLocation d = inl e -> e = S_ERROR "Invalid sandbox URL".
Proof.
  unfold parseLocation. destruct (negb _); [congruence|].
  destruct (_ <? 2); congruence.
Qed.

Lemma parseLocation_accepts rest :
  has_char "|" rest = true ->
  exists b p, parseLocation ("SB:" +:+ rest) = inr (b, p).
Proof.
  intros H. rewrite parseLocation_SB.
  apply split_length_has_char in H.
  replace (Z.of_nat _ <? 2) with false by (symmetry; apply Z.ltb_ge; lia).
  eauto.
Qed.

Lemma parseLocation_rejects d :
  ~ (exists rest, d = "SB:" +:+ rest /\ has_char "|" rest = true) ->
  parseLocation d = inl (S_ERROR "Invalid sandbox URL").
Proof.
  intros H. destruct (parseLocation d) as [e|[b p]] eqn:E.
  - by rewrite (parseLocation_inl _ _ E).
  - apply parseLocation_inr in E as [-> Hb]. destruct H.
    exists (b +:+ "|" +:+ p). split; [done|].
    rewrite has_char_app, bar_literal. simpl. by rewrite orb_true_r.
Qed.

End LocationCodec.

(** C4. The location parse of [downloadSandbox] rejects, with the error
    "Invalid sandbox URL" and before anything else is done, every descriptor
    that is not ["SB:"] followed by a text containing ['|']; it accepts all
    the others; when it succeeds the backend identifier is what stands
    between the prefix and the first ['|'] and the physical name is all that
    follows it, further ['|'] included; ["SBSEName|path"] is rejected. *)
Theorem C4_location_parse (env : Env) (self : Client) (d dest : string)
    (inMemory unpack : bool) (w : World) :
  (~ (exists rest, d = "SB:" +:+ rest /\ PyStr.has_char "|" rest = true) ->
     downloadSandbox env self d dest inMemory unpack w
       = (Done (S_ERROR "Invalid sandbox URL"), w))
  /\ (forall rest, d = "SB:" +:+ rest -> PyStr.has_char "|" rest = true ->
        exists b p, parseLocation d = inr (b, p))
  /\ (forall b p, parseLocation d = inr (b, p) ->
        d = "SB:" +:+ b +:+ "|" +:+ p /\ PyStr.has_char "|" b = false)
  /\ parseLocation "SBSEName|path" = inl (S_ERROR "Invalid sandbox URL").
Proof.
  repeat split.
  - intros H. unfold downloadSandbox. by rewrite (parseLocation_rejects _ H).
  - intros rest -> H. by apply parseLocation_accepts.
  - by apply parseLocation_inr in H as [? ?].
  - by apply parseLocation_inr in H as [? ?].
Qed.

Lemma C4_location_parse_witness :
  downloadSandbox (Sim.env Sim.plain) Sim.client "SBSEName|path" "" false true (Sim.disk 1)
    = (Done (S_ERROR "Invalid sandbox URL"), Sim.disk 1)
  /\ (exists b p, parseLocation "SB:SE|/a|b" = inr (b, p))
  /\ ("SB:SE|/a|b" = "SB:" +:+ "SE" +:+ "|" +:+ "/a|b" /\ PyStr.has_char "|" "SE" = false).
Proof.
  split; [|split].
  - apply (C4_location_parse (Sim.env Sim.plain) Sim.client "SBSEName|path" "" false true).
    intros [rest [H _]]. discriminate H.
  - apply (proj1 (proj2 (C4_location_parse (Sim.env Sim.plain) Sim.client
             "SB:SE|/a|b" "" false true (Sim.disk 1))) "SE|/a|b"); reflexivity.
  - apply (proj1 (proj2 (proj2 (C4_location_parse (Sim.env Sim.plain) Sim.client
             "SB:SE|/a|b" "" false true (Sim.disk 1))))). reflexivity.
Defined.

(** C5. Parsing, as [downloadSandbox] does, the descriptor
    ['SB:' + b + '|' + p] gives back [(b, p)] whenever [b] has no ['|']. *)
Theorem C5_parse_format_roundtrip (b p : string) :
  PyStr.has_char "|" b = false ->
  parseLocation ("SB:" +:+ b +:+ "|" +:+ p) = inr (b, p).
Proof. apply parseLocation_format. Qed.

Lemma C5_parse_format_roundtrip_witness :
  parseLocation ("SB:" +:+ "ProductionSandboxSE" +:+ "|" +:+ "/dirac/sb|1.tar.bz2")
    = inr ("ProductionSandboxSE", "/dirac/sb|1.tar.bz2").
Proof. apply (C5_parse_format_roundtrip "ProductionSandboxSE"). reflexivity. Defined.

(** ** Running client code *)

Ltac unfold_monad :=
  cbv [mbind M_bind bind mret M_ret ret emit get_world put_fs raise lift_exn
       try_except try_finally] in *.

Section Upload.
Context (env : Env).

Lemma valid_type_iff t : valid_type t = true <-> In t validSandboxTypes.
Proof.
  unfold valid_type. rewrite existsb_exists. split.
  - intros [x [Hx E]]. apply String.eqb_eq in E. by subst.
  - intros H. exists t. split; [done|apply String.eqb_refl].
Qed.

Lemma valid_type_false t : valid_type t = false <-> ~ In t validSandboxTypes.
Proof.
  rewrite <- valid_type_iff. destruct (valid_type t); split; try done.
Qed.

Lemma checkAssignTo_Some assignTo e :
  checkAssignTo assignTo = Some e ->
  exists t, ~ In t validSandboxTypes /\ e = S_ERROR ("Invalid sandbox type " +:+ t).
Proof.
  induction assignTo as [|[k t] rest IH]; simpl; [done|].
  destruct (valid_type t) eqn:E; [done|].
  intros [= <-]. exists t. split; [by apply valid_type_false|done].
Qed.

Lemma checkAssignTo_invalid assignTo :
  Exists (fun kv => ~ In (snd kv) validSandboxTypes) assignTo ->
  exists e, checkAssignTo assignTo = Some e.
Proof.
  induction 1 as [[k t] rest H|[k t] rest H IH]; simpl in *.
  - apply valid_type_false in H. rewrite H. eauto.
  - destruct (valid_type t); eauto.
Qed.

Lemma checkSbList_Some sbList e :
  checkSbList sbList = Some e ->
  exists t, ~ In t validSandboxTypes /\ e = S_ERROR ("Invalid Sandbox type " +:+ t).
Proof.
  induction sbList as [|[k t] rest IH]; simpl; [done|].
  destruct (valid_type t) eqn:E; [done|].
  intros [= <-]. exists t. split; [by apply valid_type_false|done].
Qed.

Lemma checkSbList_invalid sbList :
  Exists (fun sbT => ~ In (snd sbT) validSandboxTypes) sbList ->
  exists e, checkSbList sbList = Some e.
Proof.
  induction 1 as [[k t] rest H|[k t] rest H IH]; simpl in *.
  - apply valid_type_false in H. rewrite H. eauto.
  - destruct (valid_type t); eauto.
Qed.

(** The scan of [fileList] only asks which paths exist. *)
Lemma scanFileList_run items : forall files2Upload errorFiles w,
  Forall (fun i => supported i = true) files2Upload ->
  exists evs res,
    scanFileList items files2Upload errorFiles w
      = (Done res, mkWorld (fs w) (history w ++ evs))
    /\ Forall is_EvExists evs
    /\ match res with
       | inl e => exists ty, e = S_ERROR ("Objects of type " +:+ ty
                                          +:+ " can't be part of InputSandbox")
       | inr (fu, _) => Forall (fun i => supported i = true) fu
       end.
Proof.
  induction items as [|item rest IH]; intros fu er w Hfu.
  - exists [], (inr (fu, er)). rewrite app_nil_r. by destruct w.
  - destruct item as [s|text|ty rp]; cbn [scanFileList].
    + destruct (PyStr.search_start_ignorecase "lfn:" s); [by apply IH|].
      unfold os_path_exists. unfold_monad. cbn [fs history].
      set (found := bool_decide _).
      set (w1 := mkWorld (fs w) (history w ++ [EvExists s found])).
      destruct found.
      * destruct (IH (fu ++ [FStr s])%list er w1) as (evs & res & E & Hev & Hres).
        { apply Forall_app. split; [done|]. by constructor. }
        exists (EvExists s true :: evs), res. rewrite E. subst w1; cbn [fs history].
        rewrite <- app_assoc. repeat split; try done. by constructor.
      * destruct (IH fu (er ++ [s])%list w1) as (evs & res & E & Hev & Hres); [done|].
        exists (EvExists s false :: evs), res. rewrite E. subst w1; cbn [fs history].
        rewrite <- app_assoc. repeat split; try done. by constructor.
    + apply IH. apply Forall_app. split; [done|]. by constructor.
    + exists [], (inl (S_ERROR ("Objects of type " +:+ ty +:+ " can't be part of InputSandbox"))).
      rewrite app_nil_r. unfold_monad. destruct w. eauto.
Qed.

Lemma checkAssignTo_valid assignTo :
  Forall (fun kv => In (snd kv) validSandboxTypes) assignTo ->
  checkAssignTo assignTo = None.
Proof.
  induction 1 as [|[k t] rest H _ IH]; [done|]. cbn [checkAssignTo].
  apply valid_type_iff in H. cbn [snd] in H. by rewrite H.
Qed.

Lemma scanFileList_supported items : forall fu er w,
  Forall (fun i => supported i = true) items ->
  scanFileList items fu er w =
    (Done (inr (fu ++ filter (fun i => uploadable (fs w) i = true) items,
                er ++ missingPaths (fs w) items)%list),
     mkWorld (fs w)
       (history w ++ map (fun p => EvExists p (exists_in (fs w) p)) (localPaths items))).
Proof.
  induction items as [|item rest IH]; intros fu er w H.
  - cbn. rewrite !app_nil_r. by destruct w.
  - inversion H as [|? ? Hi Hr]; subst.
    destruct item as [s|text|ty rp]; [| |done]; cbn [scanFileList].
    + unfold missingPaths, localPaths. cbn [flat_map is_lfn].
      destruct (PyStr.search_start_ignorecase "lfn:" s) eqn:El.
      * rewrite IH by done. rewrite filter_cons_False; [done|].
        unfold uploadable, is_lfn. by rewrite El.
      * unfold os_path_exists. unfold_monad. cbn [fs history app map].
        fold (exists_in (fs w) s).
        destruct (exists_in (fs w) s) eqn:Ex.
        -- rewrite IH by done. cbn [fs history].
           rewrite (filter_cons_True (fun i => uploadable (fs w) i = true))
             by (unfold uploadable, is_lfn; by rewrite El, Ex).
           rewrite (filter_cons_False (fun p => exists_in (fs w) p = false))
             by (by rewrite Ex).
           by rewrite <- !app_assoc.
        -- rewrite IH by done. cbn [fs history].
           rewrite (filter_cons_False (fun i => uploadable (fs w) i = true))
             by (unfold uploadable, is_lfn; by rewrite El, Ex).
           rewrite (filter_cons_True (fun p => exists_in (fs w) p = false))
             by done.
           by rewrite <- !app_assoc.
    + rewrite IH by done. rewrite filter_cons_True by done.
      by rewrite <- app_assoc.
Qed.

(** A scan that ends without [return] has met supported elements only. *)
Lemma scanFileList_inr items : forall fu er w res w',
  scanFileList items fu er w = (Done (inr res), w') ->
  Forall (fun i => supported i = true) items.
Proof.
  induction items as [|item rest IH]; intros fu er w res w' H; [constructor|].
  destruct item as [s|text|ty rp]; cbn [scanFileList] in H.
  - constructor; [done|].
    destruct (PyStr.search_start_ignorecase "lfn:" s); [by eapply IH|].
    unfold mbind, M_bind, bind in H.
    destruct (os_path_exists s w) as [[[]|e] w1]; [by eapply IH|by eapply IH|done].
  - constructor; [done|]. by eapply IH.
  - unfold_monad. done.
Qed.

(** The [return] of line 136 is never reached with what the scan lets
    through. *)
Lemma addMembers_supported w files : forall tf tf' r,
  Forall (fun i => supported i = true) files ->
  addMembers env w files tf <> (tf', inl (Some r)).
Proof.
  induction files as [|item rest IH]; intros tf tf' r H; [done|].
  inversion H as [|? ? Hi Hr]; subst.
  destruct item as [s|text|ty rp]; cbn [addMembers]; [| |done].
  - destruct (tar_add env w (realpath env w s) (OsPath.basename s)); [by apply IH|done].
  - by apply IH.
Qed.

Lemma files2Upload_supported f items :
  Forall (fun i => supported i = true) (files2Upload f items).
Proof.
  apply Forall_forall. intros i Hi. apply list_elem_of_filter in Hi as [Hi _].
  by destruct i.
Qed.

Lemma os_mkstemp_run prefix w :
  os_mkstemp env prefix w =
    match mkstemp_name env w prefix with
    | inl p => (Done p, mkWorld (<[p := File (new_stat env w) []]> (fs w))
                                (history w ++ [EvMkstemp p]))
    | inr e => (Raised e, w)
    end.
Proof.
  unfold os_mkstemp. unfold_monad.
  by destruct (mkstemp_name env w prefix).
Qed.

Lemma writeArchive_run p files w :
  writeArchive env p files w =
    match addMembers env w files [] with
    | (tf, inl early) => (Done early, archived env w p tf)
    | (tf, inr e) =>
        (Raised e,
         mkWorld (<[p := File (new_stat env w) (tar_aborted env w tf)]> (fs w))
                 (history w))
    end.
Proof.
  unfold writeArchive, archived. unfold_monad.
  by destruct (addMembers env w files []) as [tf [early|e]].
Qed.

Lemma archived_lookup w2 p tf :
  fs (archived env w2 p tf) !! p = Some (File (new_stat env w2) (tar_bz2 env tf)).
Proof. apply lookup_insert_eq. Qed.

Lemma fileDigest_run p w st data :
  fs w !! p = Some (File st data) ->
  fileDigest env p w =
    (Done (digestOf env data), mkWorld (fs w) (history w ++ [EvRead p])).
Proof.
  intros H. unfold fileDigest, os_read. unfold_monad. cbn [fs history].
  by rewrite H.
Qed.

Lemma sendAndCleanup_run p digest a w st data :
  fs w !! p = Some (File st data) ->
  sendAndCleanup env p digest a w =
    let r := sendFile env w p (digest +:+ ".tar.bz2") a in
    (Done (set_SandboxFileName r p),
     mkWorld (if OK r then delete p (fs w) else fs w)
             (history w ++ [EvSendFile p (digest +:+ ".tar.bz2") a (OK r)]
                ++ (if OK r then [EvUnlink p] else []))).
Proof.
  intros H. unfold sendAndCleanup, os_unlink. unfold_monad. cbn [fs history OK set_SandboxFileName].
  destruct (OK (sendFile env w p (digest +:+ ".tar.bz2") a)) eqn:Eok; cbn [fs history].
  - rewrite H. cbn. by rewrite <- app_assoc.
  - done.
Qed.

(** Lines 126-160 when [tf.add] raises. *)
Lemma bundleAndSend_aborted p files sizeLimit a w2 tf e :
  addMembers env w2 files [] = (tf, inr e) ->
  bundleAndSend env p files sizeLimit a w2 =
    (Raised e,
     mkWorld (<[p := File (new_stat env w2) (tar_aborted env w2 tf)]> (fs w2))
             (history w2)).
Proof.
  intros H. unfold bundleAndSend. unfold mbind, M_bind, bind at 1.
  by rewrite writeArchive_run, H.
Qed.

(** Lines 126-143 when the archive is over the limit. *)
Lemma bundleAndSend_over_limit p files sizeLimit a w2 tf :
  addMembers env w2 files [] = (tf, inl None) ->
  0 < sizeLimit ->
  sizeLimit < getGlobbedTotalSize env (archived env w2 p tf) p ->
  bundleAndSend env p files sizeLimit a w2 =
    (Done (set_SandboxFileName (S_ERROR "Size over the limit") p),
     measured env (archived env w2 p tf) p).
Proof.
  intros H Hpos Hover. unfold bundleAndSend. unfold mbind, M_bind, bind at 1.
  rewrite writeArchive_run, H. unfold bind at 1, sizeGuard.
  apply Z.gtb_lt in Hpos, Hover. rewrite Hpos. unfold_monad. by rewrite Hover.
Qed.

(** Lines 126-160 when the size guard lets the archive through. *)
Lemma bundleAndSend_sent p files sizeLimit a w2 tf sizeEvs :
  addMembers env w2 files [] = (tf, inl None) ->
  size_passed env sizeLimit p (archived env w2 p tf) sizeEvs ->
  bundleAndSend env p files sizeLimit a w2 =
    let ws := sending (archived env w2 p tf) p sizeEvs in
    let name := digestOf env (tar_bz2 env tf) +:+ ".tar.bz2" in
    let r := sendFile env ws p name a in
    (Done (set_SandboxFileName r p),
     mkWorld (if OK r then delete p (fs ws) else fs ws)
             (history ws ++ [EvSendFile p name a (OK r)]
                ++ (if OK r then [EvUnlink p] else []))).
Proof.
  intros H Hs. unfold bundleAndSend. unfold mbind, M_bind, bind at 1.
  rewrite writeArchive_run, H. unfold bind at 1, sizeGuard.
  pose proof (archived_lookup w2 p tf) as Hp.
  destruct Hs as [Hle|Hpos Hle].
  - assert ((sizeLimit >? 0) = false) as -> by (rewrite Z.gtb_ltb; by apply Z.ltb_ge).
    unfold_monad.
    rewrite (fileDigest_run p _ (new_stat env w2) (tar_bz2 env tf)) by done.
    rewrite (sendAndCleanup_run p _ a _ (new_stat env w2) (tar_bz2 env tf)) by done.
    unfold sending. cbn [app fs history]. reflexivity.
  - assert ((sizeLimit >? 0) = true) as -> by (by apply Z.gtb_lt).
    unfold_monad.
    assert ((getGlobbedTotalSize env (archived env w2 p tf) p >? sizeLimit) = false) as ->
      by (rewrite Z.gtb_ltb; by apply Z.ltb_ge).
    rewrite (fileDigest_run p _ (new_stat env w2) (tar_bz2 env tf)) by done.
    rewrite (sendAndCleanup_run p _ a _ (new_stat env w2) (tar_bz2 env tf)) by done.
    unfold sending. cbn [fs history]. by rewrite <- !app_assoc.
Qed.

Lemma bundleAndSend_exits p files sizeLimit a w2 o w' :
  Forall (fun i => supported i = true) files ->
  bundleAndSend env p files sizeLimit a w2 = (o, w') ->
  bundle_exit env sizeLimit a p files w2 o w'.
Proof.
  intros Hf. destruct (addMembers env w2 files []) as [tf [[r|]|e]] eqn:Ea.
  - by destruct (addMembers_supported w2 files [] tf r Hf).
  - destruct (Z_lt_le_dec 0 sizeLimit) as [Hpos|Hle].
    + destruct (Z_lt_le_dec sizeLimit (getGlobbedTotalSize env (archived env w2 p tf) p))
        as [Hover|Hin].
      * rewrite (bundleAndSend_over_limit _ _ _ _ _ _ Ea Hpos Hover).
        intros [= <- <-]. by apply bundle_over_limit.
      * rewrite (bundleAndSend_sent _ _ _ _ _ _ _ Ea (measured_within _ _ _ _ Hpos Hin)).
        intros [= <- <-]. apply bundle_sent; [done|by constructor].
    + rewrite (bundleAndSend_sent _ _ _ _ _ _ _ Ea (not_measured _ _ _ _ Hle)).
      intros [= <- <-]. apply bundle_sent; [done|by constructor].
  - rewrite (bundleAndSend_aborted _ _ _ _ _ _ _ Ea). intros [= <- <-].
    by apply bundle_aborted.
Qed.

(** The call up to the creation of the staging file. *)
Lemma uploadFilesAsSandbox_staged items sizeLimit assignTo w p :
  Forall (fun kv => In (snd kv) validSandboxTypes) (default [] assignTo) ->
  Forall (fun i => supported i = true) items ->
  missingPaths (fs w) items = [] ->
  mkstemp_name env (scanned w items) "LDSB." = inl p ->
  uploadFilesAsSandbox env (FLSeq items) sizeLimit assignTo w =
    bundleAndSend env p (files2Upload (fs w) items) sizeLimit (default [] assignTo)
      (staged env w items p).
Proof.
  intros Ha Hi Hm Em. unfold uploadFilesAsSandbox. cbv zeta.
  rewrite (checkAssignTo_valid _ Ha).
  unfold mbind, M_bind, bind at 1.
  rewrite scanFileList_supported by done. rewrite Hm. cbn [app].
  unfold mbind, M_bind, bind at 1. unfold try_except.
  unfold mbind, M_bind, bind at 1. rewrite os_mkstemp_run. fold (scanned w items).
  rewrite Em. reflexivity.
Qed.

Lemma upload_exit_nil fileList sizeLimit a w e :
  OK e = false -> SandboxFileName e = None -> Message e <> "Size over the limit" ->
  upload_exit env fileList sizeLimit a w (Done e) w.
Proof.
  intros. pose proof (exit_rejected env fileList sizeLimit a w [] e) as X.
  rewrite app_nil_r in X. destruct w. by apply X.
Qed.

Lemma uploadFilesAsSandbox_exits fileList sizeLimit assignTo w o w' :
  uploadFilesAsSandbox env fileList sizeLimit assignTo w = (o, w') ->
  upload_exit env fileList sizeLimit (default [] assignTo) w o w'.
Proof.
  intros Hrun. pose proof Hrun as Hrun0. revert Hrun.
  unfold uploadFilesAsSandbox.
  set (a := default [] assignTo).
  destruct (checkAssignTo a) as [e|] eqn:Ec.
  { apply checkAssignTo_Some in Ec as (t & _ & ->).
    unfold_monad. intros [= <- <-]. by apply upload_exit_nil. }
  destruct fileList as [items|].
  2:{ unfold_monad. intros [= <- <-]. by apply upload_exit_nil. }
  destruct (scanFileList_run items [] [] w) as (evs & res & E & Hev & Hres); [done|].
  unfold mbind, M_bind, bind at 1. rewrite E.
  destruct res as [e|[fu er]].
  { destruct Hres as [ty ->]. unfold_monad. intros [= <- <-].
    by apply exit_rejected. }
  pose proof (scanFileList_inr _ _ _ _ _ _ E) as Hsup.
  rewrite (scanFileList_supported _ _ _ _ Hsup) in E. cbn [app] in E.
  injection E as <- <- Eevs. apply app_inv_head in Eevs.
  destruct (missingPaths (fs w) items) as [|x xs] eqn:Em.
  2:{ unfold_monad. intros [= <- <-]. by apply exit_rejected. }
  intros _. clear Hres.
  destruct (mkstemp_name env (scanned w items) "LDSB.") as [p|e] eqn:Es.
  - assert (Ha : Forall (fun kv => In (snd kv) validSandboxTypes) a).
    { clear -Ec. induction a as [|[k t] rest IH]; [constructor|].
      cbn [checkAssignTo] in Ec. destruct (valid_type t) eqn:Et; [|done].
      constructor; [by apply valid_type_iff|by apply IH]. }
    rewrite (uploadFilesAsSandbox_staged _ _ _ _ _ Ha Hsup Em Es) in Hrun0.
    apply bundleAndSend_exits in Hrun0; [|apply files2Upload_supported].
    by eapply exit_staged.
  - revert Hrun0. unfold uploadFilesAsSandbox. fold a. rewrite Ec.
    unfold mbind, M_bind, bind at 1.
    rewrite scanFileList_supported by done. rewrite Em. cbn [app].
    unfold mbind, M_bind, bind at 1. unfold try_except.
    unfold mbind, M_bind, bind at 1. rewrite os_mkstemp_run. fold (scanned w items).
    rewrite Es. destruct (is_Exception e) eqn:Ee.
    + unfold_monad. intros [= <- <-]. unfold scanned.
      apply exit_rejected; try done. by rewrite Eevs.
    + intros [= <- <-]. by eapply exit_interrupted.
Qed.

End Upload.

(** ** Reading a history *)

Lemma only_exists_events evs ev :
  Forall is_EvExists evs -> ev ∈ evs -> is_EvExists ev.
Proof. intros H. by apply Forall_forall. Qed.

Ltac in_history :=
  repeat match goal with
    | H : _ ∈ (_ ++ _)%list |- _ => apply elem_of_app in H as [H|H]
    | H : _ ∈ _ :: _ |- _ => apply elem_of_cons in H as [H|H]
    | H : _ ∈ [] |- _ => by apply elem_of_nil in H
    | H : _ ∈ (if ?b then _ else _) |- _ => destruct b eqn:?
    | H1 : Forall is_EvExists ?evs, H2 : ?ev ∈ ?evs |- _ =>
        by destruct (only_exists_events evs ev H1 H2)
    | H : size_checked _ _ _ |- _ => inversion H; clear H; subst
    | H : size_passed _ _ _ _ _ |- _ => inversion H; clear H; subst
    | H : _ ∈ map (fun p => EvExists p _) _ |- _ =>
        apply list_elem_of_fmap in H as (? & H & _); try discriminate H
    end.

(** Writes the worlds of a run out, history by history. *)
Ltac unfold_worlds :=
  repeat match goal with x := _ |- _ => subst x end;
  unfold measured, sending, archived, staged, scanned in *; cbn [fs history] in *.

Ltac in_list :=
  repeat first [apply list_elem_of_here | apply list_elem_of_further].

(** Finds an event in a history written as appended lists. *)
Ltac find_event :=
  cbn [app];
  lazymatch goal with
  | |- _ ∈ _ :: _ =>
      first [apply list_elem_of_here | apply list_elem_of_further; find_event]
  | |- _ ∈ (_ ++ _)%list =>
      apply elem_of_app; first [left; find_event | right; find_event]
  end.

Ltac all_events :=
  repeat first [apply List.Forall_nil | apply List.Forall_cons; [exact I|]].

Section UploadProperties.
Context (env : Env) (self : Client).

(** C6. A sandbox type outside ["Input"], ["Output"] makes
    [uploadFilesAsSandbox] and [assignSandboxesToJob] return their
    "Invalid sandbox type" error and leave the world as it was: no call
    to a backend, no staging file, no transfer. *)
Theorem C6_invalid_type_rejected_first :
  (forall fileList sizeLimit assignTo w,
      Exists (fun kv => ~ In (snd kv) validSandboxTypes) assignTo ->
      exists t, ~ In t validSandboxTypes /\
        uploadFilesAsSandbox env fileList sizeLimit (Some assignTo) w
          = (Done (S_ERROR ("Invalid sandbox type " +:+ t)), w))
  /\ (forall jobId sbList ownerName ownerGroup w,
      Exists (fun sbT => ~ In (snd sbT) validSandboxTypes) sbList ->
      exists t, ~ In t validSandboxTypes /\
        assignSandboxesToJob env self jobId sbList ownerName ownerGroup w
          = (Done (S_ERROR ("Invalid Sandbox type " +:+ t)), w)).
Proof.
  split.
  - intros fileList sizeLimit assignTo w H.
    destruct (checkAssignTo_invalid _ H) as [e He].
    destruct (checkAssignTo_Some _ _ He) as (t & Ht & ->).
    exists t. split; [done|]. unfold uploadFilesAsSandbox. cbv zeta.
    change (default [] (Some assignTo)) with assignTo. by rewrite He.
  - intros jobId sbList ownerName ownerGroup w H.
    destruct (checkSbList_invalid _ H) as [e He].
    destruct (checkSbList_Some _ _ He) as (t & Ht & ->).
    exists t. split; [done|]. unfold assignSandboxesToJob. by rewrite He.
Qed.

(** C3. When the archive that [uploadFilesAsSandbox] has written measures
    more than a positive [sizeLimit], the call returns the error "Size over
    the limit" with the staging path under ["SandboxFileName"], the archive
    is still at that path and nothing is read or sent after the measure.
    Without a positive limit no call ever measures anything, and the
    archive is sent whatever its size; with a positive limit that the
    archive does not exceed, it is measured once and sent. *)
Theorem C3_size_guard :
  (forall items sizeLimit assignTo w p tf,
      Forall (fun kv => In (snd kv) validSandboxTypes) (default [] assignTo) ->
      Forall (fun i => supported i = true) items ->
      missingPaths (fs w) items = [] ->
      mkstemp_name env (scanned w items) "LDSB." = inl p ->
      addMembers env (staged env w items p) (files2Upload (fs w) items) [] = (tf, inl None) ->
      let w3 := archived env (staged env w items p) p tf in
      0 < sizeLimit ->
      sizeLimit < getGlobbedTotalSize env w3 p ->
      exists r w',
        uploadFilesAsSandbox env (FLSeq items) sizeLimit assignTo w = (Done r, w')
        /\ OK r = false /\ Message r = "Size over the limit"
        /\ SandboxFileName r = Some p
        /\ fs w' !! p = Some (File (new_stat env (staged env w items p)) (tar_bz2 env tf))
        /\ history w' =
             (history w ++ map (fun q => EvExists q (exists_in (fs w) q)) (localPaths items)
                ++ [EvMkstemp p; EvTarWrite p tf;
                    EvGlobbedSize p (getGlobbedTotalSize env w3 p)])%list)
  /\ (forall fileList sizeLimit assignTo w o w' evs,
      sizeLimit <= 0 ->
      uploadFilesAsSandbox env fileList sizeLimit assignTo w = (o, w') ->
      history w' = (history w ++ evs)%list ->
      forall q n, EvGlobbedSize q n ∉ evs)
  /\ (forall items sizeLimit assignTo w p tf,
      Forall (fun kv => In (snd kv) validSandboxTypes) (default [] assignTo) ->
      Forall (fun i => supported i = true) items ->
      missingPaths (fs w) items = [] ->
      mkstemp_name env (scanned w items) "LDSB." = inl p ->
      addMembers env (staged env w items p) (files2Upload (fs w) items) [] = (tf, inl None) ->
      sizeLimit <= 0 ->
      exists r w',
        uploadFilesAsSandbox env (FLSeq items) sizeLimit assignTo w = (Done r, w')
        /\ history w' =
             (history w ++ map (fun q => EvExists q (exists_in (fs w) q)) (localPaths items)
                ++ [EvMkstemp p; EvTarWrite p tf; EvRead p;
                    EvSendFile p (digestOf env (tar_bz2 env tf) +:+ ".tar.bz2")
                               (default [] assignTo) (OK r)]
                ++ (if OK r then [EvUnlink p] else []))%list)
  /\ (forall items sizeLimit assignTo w p tf,
      Forall (fun kv => In (snd kv) validSandboxTypes) (default [] assignTo) ->
      Forall (fun i => supported i = true) items ->
      missingPaths (fs w) items = [] ->
      mkstemp_name env (scanned w items) "LDSB." = inl p ->
      addMembers env (staged env w items p) (files2Upload (fs w) items) [] = (tf, inl None) ->
      let w3 := archived env (staged env w items p) p tf in
      0 < sizeLimit ->
      getGlobbedTotalSize env w3 p <= sizeLimit ->
      exists r w',
        uploadFilesAsSandbox env (FLSeq items) sizeLimit assignTo w = (Done r, w')
        /\ history w' =
             (history w ++ map (fun q => EvExists q (exists_in (fs w) q)) (localPaths items)
                ++ [EvMkstemp p; EvTarWrite p tf;
                    EvGlobbedSize p (getGlobbedTotalSize env w3 p); EvRead p;
                    EvSendFile p (digestOf env (tar_bz2 env tf) +:+ ".tar.bz2")
                               (default [] assignTo) (OK r)]
                ++ (if OK r then [EvUnlink p] else []))%list).
Proof.
  split; [|split; [|split]].
  - intros items sizeLimit assignTo w p tf Ha Hi Hm Es Ea w3 Hpos Hover.
    rewrite (uploadFilesAsSandbox_staged env _ _ _ _ _ Ha Hi Hm Es).
    rewrite (bundleAndSend_over_limit env _ _ _ _ _ _ Ea Hpos Hover).
    eexists _, _. split; [reflexivity|].
    split; [done|]. split; [done|]. split; [done|]. split.
    + exact (archived_lookup env _ _ _).
    + unfold_worlds. by rewrite <- !app_assoc.
  - intros fileList sizeLimit assignTo w o w' evs Hle Hrun Hh q n Hin.
    apply uploadFilesAsSandbox_exits in Hrun.
    destruct Hrun as [evs0 e Hev ? ? ?|items e -> Es Ee|items p o w' -> Hi Hm Es Hb].
    + cbn [history] in Hh. apply app_inv_head in Hh as <-. in_history.
    + unfold_worlds. apply app_inv_head in Hh as <-. in_history.
    + destruct Hb as [tf e Ea|tf Ea Hpos Hover|tf sizeEvs Ea Hs]; [|lia|];
        unfold_worlds; rewrite <- ?app_assoc in Hh; apply app_inv_head in Hh as <-;
        in_history; try done; lia.
  - intros items sizeLimit assignTo w p tf Ha Hi Hm Es Ea Hle.
    rewrite (uploadFilesAsSandbox_staged env _ _ _ _ _ Ha Hi Hm Es).
    rewrite (bundleAndSend_sent env _ _ _ _ _ _ _ Ea (not_measured _ _ _ _ Hle)).
    cbv zeta. eexists _, _. split; [reflexivity|].
    unfold_worlds. by rewrite <- !app_assoc.
  - intros items sizeLimit assignTo w p tf Ha Hi Hm Es Ea w3 Hpos Hin.
    rewrite (uploadFilesAsSandbox_staged env _ _ _ _ _ Ha Hi Hm Es).
    rewrite (bundleAndSend_sent env _ _ _ _ _ _ _ Ea (measured_within _ _ _ _ Hpos Hin)).
    cbv zeta. eexists _, _. split; [reflexivity|].
    unfold_worlds. by rewrite <- !app_assoc.
Qed.

(** C9. With valid sandbox types and a [fileList] of strings and
    [StringIO] objects of which some local path is not on disk,
    [uploadFilesAsSandbox] looks every local path up and returns one
    error that names all the missing ones, in order; nothing else is
    done. *)
Theorem C9_missing_files_aggregated items sizeLimit assignTo w :
  Forall (fun kv => In (snd kv) validSandboxTypes) (default [] assignTo) ->
  Forall (fun i => supported i = true) items ->
  missingPaths (fs w) items <> [] ->
  uploadFilesAsSandbox env (FLSeq items) sizeLimit assignTo w =
    (Done (S_ERROR ("Failed to locate files: "
                    +:+ PyStr.join ", " (missingPaths (fs w) items))),
     mkWorld (fs w)
       (history w ++ map (fun p => EvExists p (exists_in (fs w) p)) (localPaths items))).
Proof.
  intros Ha Hi Hm. unfold uploadFilesAsSandbox. cbv zeta.
  rewrite (checkAssignTo_valid _ Ha).
  unfold mbind, M_bind, bind at 1.
  rewrite scanFileList_supported by done. cbn [app].
  destruct (missingPaths (fs w) items); done.
Qed.

Lemma scanFileList_skips_lfn items : forall fu er w,
  scanFileList items fu er w
    = scanFileList (filter (fun i => is_lfn i = false) items) fu er w.
Proof.
  induction items as [|item rest IH]; intros fu er w; [done|].
  destruct (is_lfn item) eqn:El.
  - rewrite filter_cons_False by (by rewrite El).
    destruct item; try discriminate. cbn [scanFileList].
    unfold is_lfn in El. rewrite El. apply IH.
  - rewrite filter_cons_True by done.
    destruct item as [s|text|ty rp]; cbn [scanFileList].
    + unfold is_lfn in El. rewrite El. unfold mbind, M_bind, bind.
      destruct (os_path_exists s w) as [[[]|e] w1]; [apply IH|apply IH|done].
    + apply IH.
    + done.
Qed.

Lemma filter_all_lfn items :
  Forall (fun i => is_lfn i = true) items ->
  filter (fun i => is_lfn i = false) items = [].
Proof.
  induction 1 as [|i rest H _ IH]; [done|].
  rewrite filter_cons_False; [done|]. by rewrite H.
Qed.

(** C10. Strings that start with ["lfn:"], in any case, are skipped by
    [uploadFilesAsSandbox]: the call behaves, in result and in every
    effect, as if they were not in [fileList]; and a [fileList] made of
    such strings only, with valid sandbox types, a staging file and an
    archive within the size limit, gives an archive without members that
    is handed to the transfer, with no look-up on disk and no error of
    the client's own. *)
Theorem C10_lfn_entries_skipped :
  (forall items sizeLimit assignTo w,
      uploadFilesAsSandbox env (FLSeq items) sizeLimit assignTo w
      = uploadFilesAsSandbox env
          (FLSeq (filter (fun i => is_lfn i = false) items)) sizeLimit assignTo w)
  /\ (forall items sizeLimit assignTo w p,
      Forall (fun i => is_lfn i = true) items ->
      Forall (fun kv => In (snd kv) validSandboxTypes) (default [] assignTo) ->
      mkstemp_name env w "LDSB." = inl p ->
      (sizeLimit <= 0 \/ forall w0, getGlobbedTotalSize env w0 p <= sizeLimit) ->
      exists st sizeEvs r,
        size_checked sizeLimit p sizeEvs /\
        uploadFilesAsSandbox env (FLSeq items) sizeLimit assignTo w =
          (Done (set_SandboxFileName r p),
           mkWorld (if OK r then delete p (fs w)
                    else <[p := File st (tar_bz2 env [])]> (fs w))
                   (history w ++ [EvMkstemp p; EvTarWrite p []] ++ sizeEvs
                      ++ [EvRead p;
                          EvSendFile p (digestOf env (tar_bz2 env []) +:+ ".tar.bz2")
                                     (default [] assignTo) (OK r)]
                      ++ (if OK r then [EvUnlink p] else [])))).
Proof.
  assert (Hskip : forall items sizeLimit assignTo w,
      uploadFilesAsSandbox env (FLSeq items) sizeLimit assignTo w
      = uploadFilesAsSandbox env
          (FLSeq (filter (fun i => is_lfn i = false) items)) sizeLimit assignTo w).
  { intros items sizeLimit assignTo w. unfold uploadFilesAsSandbox. cbv zeta.
    destruct (checkAssignTo _); [done|].
    unfold mbind, M_bind, bind. by rewrite scanFileList_skips_lfn. }
  split; [exact Hskip|].
  intros items sizeLimit assignTo w p Hlfn Ha Em Hsize.
  rewrite Hskip, (filter_all_lfn _ Hlfn).
  assert (Hw : scanned w [] = w) by (unfold scanned; cbn; rewrite app_nil_r; by destruct w).
  rewrite <- Hw in Em.
  rewrite (uploadFilesAsSandbox_staged env [] _ _ _ _ Ha (List.Forall_nil _) eq_refl Em).
  set (w2 := staged env w [] p).
  assert (Ea : addMembers env w2 (files2Upload (fs w) []) [] = ([], inl None)) by done.
  assert (Hs : exists sizeEvs, size_passed env sizeLimit p (archived env w2 p []) sizeEvs).
  { destruct (Z_lt_le_dec 0 sizeLimit) as [Hpos|Hle].
    - destruct Hsize as [?|Hsize]; [lia|]. eexists. by apply measured_within.
    - eexists. by apply not_measured. }
  destruct Hs as [sizeEvs Hs].
  rewrite (bundleAndSend_sent env _ _ _ _ _ _ _ Ea Hs). cbv zeta.
  set (r := sendFile env _ _ _ _).
  exists (new_stat env w2), sizeEvs, r. split.
  { destruct Hs; by constructor. }
  subst w2. unfold_worlds. rewrite app_nil_r.
  rewrite insert_insert_eq, delete_insert_eq.
  by rewrite <- !app_assoc.
Qed.

End UploadProperties.

(** ** The streamed digest *)

Section Digest.
Context (env : Env).

Lemma chunk_size_pos : (0 < chunk_size)%nat.
Proof. unfold chunk_size. lia. Qed.

Lemma chunks_of_concat n :
  (0 < n)%nat -> forall fuel data,
  (length data < fuel)%nat -> concat (chunks_of n fuel data) = data.
Proof.
  intros Hn. induction fuel as [|fuel IH]; intros data Hl; [lia|].
  cbn [chunks_of]. destruct (take n data) as [|b bs] eqn:Et.
  - destruct data as [|x xs]; [done|]. destruct n; [lia|]. discriminate.
  - cbn [concat]. rewrite IH.
    + rewrite <- Et. apply take_drop.
    + rewrite length_drop. destruct data; [by rewrite take_nil in Et|].
      cbn [length] in *. lia.
Qed.

Lemma chunks_of_bounds n fuel : forall data,
  Forall (fun c => c <> [] /\ (length c <= n)%nat) (chunks_of n fuel data).
Proof.
  induction fuel as [|fuel IH]; intros data; [constructor|].
  cbn [chunks_of]. destruct (take n data) as [|b bs] eqn:Et; constructor.
  - split; [done|]. rewrite <- Et, length_take. lia.
  - apply IH.
Qed.

Lemma md5_stream_chunks fuel : forall h data,
  md5_stream env fuel h data
    = fold_left (md5_update env) (chunks_of chunk_size fuel data) h.
Proof.
  induction fuel as [|fuel IH]; intros h data; [done|].
  cbn [md5_stream chunks_of].
  destruct (take chunk_size data); [done|]. cbn [fold_left]. apply IH.
Qed.

Lemma digestOf_canonical tf :
  digestOf env (tar_bz2 env tf) +:+ ".tar.bz2" = canonicalName env tf.
Proof. unfold digestOf, canonicalName, chunks. by rewrite md5_stream_chunks. Qed.

(** The name under which one run sends the archive it wrote. *)
Lemma sent_name fileList sizeLimit assignTo w o w' evs p tf q name a ok :
  uploadFilesAsSandbox env fileList sizeLimit assignTo w = (o, w') ->
  history w' = (history w ++ evs)%list ->
  EvTarWrite p tf ∈ evs -> EvSendFile q name a ok ∈ evs ->
  name = canonicalName env tf.
Proof.
  intros Hrun Hh Hw Hs. apply uploadFilesAsSandbox_exits in Hrun.
  destruct Hrun as [evs0 e Hev ? ? ?|items e -> Es Ee|items p0 o w' -> Hi Hm Es Hb].
  - cbn [history] in Hh. apply app_inv_head in Hh as <-. in_history.
  - unfold_worlds. apply app_inv_head in Hh as <-. in_history.
  - destruct Hb as [tf0 e Ea|tf0 Ea Hpos Hover|tf0 sizeEvs Ea Hsz];
      unfold_worlds; rewrite <- ?app_assoc in Hh; apply app_inv_head in Hh as <-.
    + in_history; done.
    + in_history; done.
    + in_history; try done;
        injection Hw as -> ->; injection Hs as _ -> _ _;
        apply digestOf_canonical.
Qed.

(** With every local path on disk, what goes to the archive is the list
    without its logical file names. *)
Lemma files2Upload_all f items :
  missingPaths f items = [] ->
  files2Upload f items = filter (fun i => uploadable f i = true) items
  /\ forall s, FStr s ∈ files2Upload f items -> s ∈ localPaths items.
Proof.
  intros _. split; [done|]. intros s Hs.
  apply list_elem_of_filter in Hs as [Hu Hs]. unfold localPaths.
  apply list_elem_of_In, in_flat_map. exists (FStr s).
  split; [by apply list_elem_of_In|].
  unfold uploadable in Hu. apply andb_true_iff in Hu as [Hl _].
  apply negb_true_iff in Hl. rewrite Hl. by left.
Qed.

Lemma files2Upload_same f1 f2 items :
  missingPaths f1 items = [] -> missingPaths f2 items = [] ->
  files2Upload f1 items = files2Upload f2 items.
Proof.
  unfold files2Upload, missingPaths, localPaths.
  induction items as [|item rest IH]; intros H1 H2; [done|].
  cbn [flat_map] in H1, H2. rewrite filter_app in H1, H2.
  apply app_eq_nil in H1 as [H1 H1'], H2 as [H2 H2'].
  specialize (IH H1' H2').
  assert (uploadable f1 item = uploadable f2 item) as E.
  { destruct item as [s|text|ty rp]; try done. cbn [uploadable].
    destruct (is_lfn (FStr s)); [done|]. cbn [negb andb].
    destruct (exists_in f1 s) eqn:E1, (exists_in f2 s) eqn:E2; try done.
    - by rewrite filter_cons_True in H2 by done.
    - by rewrite filter_cons_True in H1 by done. }
  destruct (uploadable f2 item) eqn:Eu.
  - rewrite !filter_cons_True by (by rewrite ?E). by rewrite IH.
  - rewrite !filter_cons_False by (by rewrite ?E, ?Eu). done.
Qed.

(** Two worlds in which [tf.add] records the same members for every path
    give the tar writer the same members. *)
Lemma addMembers_same wa wb files : forall tf,
  Forall (fun i => supported i = true) files ->
  (forall s, FStr s ∈ files ->
     exists members,
       tar_add env wa (realpath env wa s) (OsPath.basename s) = inl members
       /\ tar_add env wb (realpath env wb s) (OsPath.basename s) = inl members) ->
  exists tf', addMembers env wa files tf = (tf', inl None)
              /\ addMembers env wb files tf = (tf', inl None).
Proof.
  induction files as [|item rest IH]; intros tf Hs Hadd; [by exists tf|].
  inversion Hs as [|? ? Hi Hr]; subst.
  assert (Hrest : forall s, FStr s ∈ rest ->
            exists members,
              tar_add env wa (realpath env wa s) (OsPath.basename s) = inl members
              /\ tar_add env wb (realpath env wb s) (OsPath.basename s) = inl members)
    by (intros s Hin; apply Hadd; by apply list_elem_of_further).
  destruct item as [s|text|ty rp]; cbn [addMembers]; [| |done].
  - destruct (Hadd s (list_elem_of_here _ _)) as (members & -> & ->). by apply IH.
  - by apply IH.
Qed.

(** C1, as the code has it. Two runs of [uploadFilesAsSandbox] over the
    same [fileList], in two worlds where [tf.add] records the same members
    (headers and contents) for every local path of the list, and which both
    reach the transfer, write the same archive and send it under the same
    name [<digest>.tar.bz2], whatever the staging paths, limits and
    assignments; the digest is fed the archive in successive reads of at
    most 10240 bytes, none empty, that together are the whole archive. *)
Theorem C1_same_members_same_name items
    sizeLimit1 assignTo1 w1 p1 sizeLimit2 assignTo2 w2 p2 :
  Forall (fun i => supported i = true) items ->
  Forall (fun kv => In (snd kv) validSandboxTypes) (default [] assignTo1) ->
  Forall (fun kv => In (snd kv) validSandboxTypes) (default [] assignTo2) ->
  missingPaths (fs w1) items = [] ->
  missingPaths (fs w2) items = [] ->
  mkstemp_name env (scanned w1 items) "LDSB." = inl p1 ->
  mkstemp_name env (scanned w2 items) "LDSB." = inl p2 ->
  let s1 := staged env w1 items p1 in
  let s2 := staged env w2 items p2 in
  (sizeLimit1 <= 0
   \/ forall tf, addMembers env s1 (files2Upload (fs w1) items) [] = (tf, inl None) ->
                 getGlobbedTotalSize env (archived env s1 p1 tf) p1 <= sizeLimit1) ->
  (sizeLimit2 <= 0
   \/ forall tf, addMembers env s2 (files2Upload (fs w2) items) [] = (tf, inl None) ->
                 getGlobbedTotalSize env (archived env s2 p2 tf) p2 <= sizeLimit2) ->
  Forall (fun s => exists members,
            tar_add env s1 (realpath env s1 s) (OsPath.basename s) = inl members
            /\ tar_add env s2 (realpath env s2 s) (OsPath.basename s) = inl members)
         (localPaths items) ->
  exists tf r1 w1' evs1 r2 w2' evs2,
    uploadFilesAsSandbox env (FLSeq items) sizeLimit1 assignTo1 w1 = (Done r1, w1')
    /\ uploadFilesAsSandbox env (FLSeq items) sizeLimit2 assignTo2 w2 = (Done r2, w2')
    /\ history w1' = (history w1 ++ evs1)%list
    /\ history w2' = (history w2 ++ evs2)%list
    /\ EvTarWrite p1 tf ∈ evs1 /\ EvTarWrite p2 tf ∈ evs2
    /\ EvSendFile p1 (canonicalName env tf) (default [] assignTo1) (OK r1) ∈ evs1
    /\ EvSendFile p2 (canonicalName env tf) (default [] assignTo2) (OK r2) ∈ evs2
    /\ canonicalName env tf
       = md5_hexdigest env
           (fold_left (md5_update env) (chunks (tar_bz2 env tf)) (md5_new env))
         +:+ ".tar.bz2"
    /\ concat (chunks (tar_bz2 env tf)) = tar_bz2 env tf
    /\ Forall (fun c => c <> [] /\ Z.of_nat (length c) <= 10240)
              (chunks (tar_bz2 env tf)).
Proof.
  intros Hi Ha1 Ha2 Hm1 Hm2 Es1 Es2 s1 s2 Hz1 Hz2 Hadd.
  rewrite (uploadFilesAsSandbox_staged env _ _ _ _ _ Ha1 Hi Hm1 Es1).
  rewrite (uploadFilesAsSandbox_staged env _ _ _ _ _ Ha2 Hi Hm2 Es2).
  fold s1 s2. rewrite (files2Upload_same _ _ _ Hm2 Hm1) in *.
  destruct (addMembers_same s1 s2 (files2Upload (fs w1) items) [])
    as (tf & Ea1 & Ea2).
  { apply files2Upload_supported. }
  { intros s Hs. apply (files2Upload_all _ _ Hm1) in Hs.
    by apply (proj1 (Forall_forall _ _) Hadd). }
  assert (Hs1 : exists evs, size_passed env sizeLimit1 p1 (archived env s1 p1 tf) evs).
  { destruct (Z_lt_le_dec 0 sizeLimit1) as [Hpos|Hle].
    - destruct Hz1 as [?|Hz1]; [lia|]. eexists. apply measured_within; [done|].
      by apply Hz1.
    - eexists. by apply not_measured. }
  assert (Hs2 : exists evs, size_passed env sizeLimit2 p2 (archived env s2 p2 tf) evs).
  { destruct (Z_lt_le_dec 0 sizeLimit2) as [Hpos|Hle].
    - destruct Hz2 as [?|Hz2]; [lia|]. eexists. apply measured_within; [done|].
      by apply Hz2.
    - eexists. by apply not_measured. }
  destruct Hs1 as [sz1 Hs1], Hs2 as [sz2 Hs2].
  rewrite (bundleAndSend_sent env _ _ _ _ _ _ _ Ea1 Hs1).
  rewrite (bundleAndSend_sent env _ _ _ _ _ _ _ Ea2 Hs2).
  cbv zeta. rewrite digestOf_canonical.
  generalize (sendFile env (sending (archived env s1 p1 tf) p1 sz1) p1
                (canonicalName env tf) (default [] assignTo1)).
  generalize (sendFile env (sending (archived env s2 p2 tf) p2 sz2) p2
                (canonicalName env tf) (default [] assignTo2)).
  intros r2 r1. unfold_worlds.
  eexists tf, _, _, _, _, _, _.
  split; [reflexivity|]. split; [reflexivity|]. cbn [fs history OK set_SandboxFileName].
  split; [rewrite <- !app_assoc; reflexivity|].
  split; [rewrite <- !app_assoc; reflexivity|].
  split; [find_event|]. split; [find_event|].
  split; [find_event|]. split; [find_event|].
  split; [done|]. split.
  - apply chunks_of_concat; [apply chunk_size_pos|lia].
  - eapply Forall_impl; [apply chunks_of_bounds|].
    intros c [? Hc]. split; [done|]. unfold chunk_size in Hc. lia.
Qed.

End Digest.

(** ** Running a download *)

Section Download.
Context (env : Env) (self : Client).

Lemma os_mkdtemp_run prefix w :
  os_mkdtemp env prefix w =
    match mkdtemp_name env w prefix with
    | inl p => (Done p, mkWorld (<[p := Dir]> (fs w)) (history w ++ [EvMkdtemp p]))
    | inr e => (Raised e, w)
    end.
Proof.
  unfold os_mkdtemp. unfold_monad. by destruct (mkdtemp_name env w prefix).
Qed.

Lemma extractAll_history members dest : forall size w o w',
  extractAll env members dest size w = (o, w') ->
  exists evs, history w' = (history w ++ evs)%list /\ Forall keeps_files evs.
Proof.
  induction members as [|m rest IH]; intros size w o w' H.
  - cbn [extractAll] in H. unfold_monad. injection H as <- <-.
    exists []. by rewrite app_nil_r.
  - cbn [extractAll] in H. unfold_monad. cbn [fs history] in H.
    destruct (tar_extract env w m dest) as [f|e].
    + apply IH in H as (evs & Hh & Hf). cbn [history] in Hh.
      exists (EvExtract (te_name m) dest :: evs).
      rewrite Hh, <- app_assoc. split; [done|]. by constructor.
    + injection H as <- <-. exists [EvExtract (te_name m) dest].
      split; [done|]. all_events.
Qed.

(** [os.unlink(tarFileName); os.rmdir(tmpSBDir)] *)
Lemma remove_both_run tar tmp w o w' :
  (os_unlink tar ≫= fun _ => os_rmdir tmp) w = (o, w') ->
  match o with
  | Done _ =>
      fs w' !! tmp = None /\ fs w' !! tar = None
      /\ history w' = (history w ++ [EvUnlink tar; EvRmdir tmp])%list
  | Raised e =>
      is_OSError e = true
      /\ (forall st data, fs w' !! tar <> Some (File st data))
      /\ (history w' = (history w ++ [EvUnlink tar])%list
          \/ history w' = (history w ++ [EvUnlink tar; EvRmdir tmp])%list)
  end.
Proof.
  unfold os_unlink, os_rmdir. unfold_monad. cbn [fs history].
  destruct (fs w !! tar) as [[st data|]|] eqn:Et; cbn [fs history].
  - destruct (delete tar (fs w) !! tmp) as [[st' data'|]|] eqn:Ed.
    + intros [= <- <-]. cbn [fs history]. rewrite lookup_delete_eq, <- app_assoc.
      repeat split; try done. by right.
    + destruct (children (delete tar (fs w)) tmp).
      * intros [= <- <-]. cbn [fs history]. rewrite lookup_delete_eq, <- app_assoc.
        repeat split; try done.
        destruct (decide (tmp = tar)) as [->|Hne]; [apply lookup_delete_eq|].
        rewrite lookup_delete_ne by done. apply lookup_delete_eq.
      * intros [= <- <-]. cbn [fs history]. rewrite lookup_delete_eq, <- app_assoc.
        repeat split; try done. by right.
    + intros [= <- <-]. cbn [fs history]. rewrite lookup_delete_eq, <- app_assoc.
      repeat split; try done. by right.
  - intros [= <- <-]. cbn [fs history]. rewrite Et. repeat split; try done. by left.
  - intros [= <- <-]. cbn [fs history]. rewrite Et. repeat split; try done. by left.
Qed.

Lemma keeps_files_local evs : Forall keeps_files evs -> Forall is_local evs.
Proof. intros H. eapply Forall_impl; [done|]. by intros []. Qed.

Lemma removeTemporaries_run tar tmp w :
  exists w' evs,
    removeTemporaries tar tmp w = (Done tt, w')
    /\ history w' = (history w ++ evs)%list
    /\ Forall is_local evs
    /\ (forall st data, fs w' !! tar <> Some (File st data))
    /\ (fs w' !! tmp = None \/ exists msg, EvWarn msg ∈ evs).
Proof.
  unfold removeTemporaries, try_except.
  destruct ((os_unlink tar ≫= fun _ => os_rmdir tmp) w) as [[[]|e] w1] eqn:E;
    apply remove_both_run in E.
  - destruct E as (Htmp & Htar & Hh). exists w1, [EvUnlink tar; EvRmdir tmp].
    repeat split; try done.
    + all_events.
    + intros st data. by rewrite Htar.
    + by left.
  - destruct E as (He & Htar & Hh). rewrite He. unfold emit.
    destruct Hh as [Hh | Hh]; eexists _, _; (split; [done|]); cbn [fs history];
      rewrite Hh, <- app_assoc; cbn [app];
      (split; [reflexivity|]); (split; [all_events|]); (split; [done|]);
      right; eexists; in_list.
Qed.

Lemma deliver_memory tar tmp dest unpack w o w' :
  deliver env tar tmp dest true unpack w = (o, w') ->
  exists evs, history w' = (history w ++ evs)%list /\ Forall is_local evs
    /\ EvUnlink tar ∈ evs
    /\ (forall st data, fs w' !! tar <> Some (File st data))
    /\ match o with
       | Done _ => fs w' !! tmp = None /\ fs w' !! tar = None
       | Raised e => is_OSError e = true
       end.
Proof.
  unfold deliver. cbv zeta. unfold try_finally.
  destruct (try_except _ _ _ w) as [o1 w1] eqn:E1.
  assert (H1 : history w1 = (history w ++ [EvRead tar])%list /\ exists r1, o1 = Done r1).
  { unfold try_except, os_read in E1. unfold_monad. cbn [fs history] in E1.
    destruct (fs w !! tar) as [[st data|]|]; cbn in E1; injection E1 as <- <-; eauto. }
  destruct H1 as [H1 [r1 ->]].
  destruct ((os_unlink tar ≫= fun _ => os_rmdir tmp) w1) as [[[]|e] w2] eqn:E2;
    apply remove_both_run in E2; intros [= <- <-].
  - destruct E2 as (Htmp & Htar & Hh).
    exists [EvRead tar; EvUnlink tar; EvRmdir tmp].
    rewrite Hh, H1, <- app_assoc. split; [done|]. split; [all_events|].
    split; [find_event|]. split; [intros st data; by rewrite Htar|]. done.
  - destruct E2 as (He & Htar & Hh).
    destruct Hh as [-> | ->]; rewrite H1, <- app_assoc;
      eexists; (split; [done|]); (split; [all_events|]); (split; [find_event|]); done.
Qed.

Lemma resolveDestination_run dest w :
  exists d w1 ev,
    resolveDestination env dest w = (Done d, w1)
    /\ history w1 = (history w ++ [ev])%list /\ keeps_files ev.
Proof.
  unfold resolveDestination.
  destruct (String.eqb dest ""); unfold_monad; cbn [fs history];
    eexists _, _, _; (split; [done|]); by cbn.
Qed.

Lemma deliver_packed tar tmp dest w o w' :
  deliver env tar tmp dest false false w = (o, w') ->
  o = Done (S_OK (VStr tar))
  /\ exists evs, history w' = (history w ++ evs)%list /\ Forall keeps_files evs.
Proof.
  unfold deliver. cbv zeta. cbn [negb].
  destruct (resolveDestination_run dest w) as (d & w1 & ev & E & Hh & Hk).
  unfold mbind, M_bind, bind at 1. rewrite E. unfold_monad.
  intros [= <- <-]. split; [done|]. exists [ev]. split; [done|]. by constructor.
Qed.

Lemma deliver_unpacked tar tmp dest w o w' :
  deliver env tar tmp dest false true w = (o, w') ->
  exists evs, history w' = (history w ++ evs)%list /\ Forall is_local evs
  /\ match o with
     | Done _ =>
         (forall st data, fs w' !! tar <> Some (File st data))
         /\ (fs w' !! tmp = None \/ exists msg, EvWarn msg ∈ evs)
     | Raised e => is_OSError e = false /\ Forall keeps_files evs
     end.
Proof.
  unfold deliver. cbv zeta. cbn [negb].
  destruct (resolveDestination_run dest w) as (d & w1 & ev & E & Hh & Hk).
  unfold mbind, M_bind, bind at 1. rewrite E.
  unfold bind at 1.
  destruct (try_except _ _ _ w1) as [o2 w2] eqn:E2.
  assert (H2 : exists evs, history w2 = (history w1 ++ evs)%list /\ Forall keeps_files evs
                 /\ match o2 with Raised e => is_OSError e = false | _ => True end).
  { unfold try_except in E2. unfold bind at 1 in E2. unfold get_world at 1 in E2.
    unfold bind at 1 in E2. unfold lift_exn in E2.
    destruct (tar_open env w1 tar) as [tf|e].
    - unfold ret at 1, bind at 1 in E2.
      destruct (extractAll env tf d 0 w1) as [[sz|e] w3] eqn:E3;
        apply extractAll_history in E3 as (evs & Hh3 & Hk3); exists evs.
      + unfold_monad. by injection E2 as <- <-.
      + destruct (is_OSError e) eqn:Ee; unfold_monad; by injection E2 as <- <-.
    - unfold raise in E2. exists []. rewrite app_nil_r.
      destruct (is_OSError e) eqn:Ee; unfold_monad; by injection E2 as <- <-. }
  destruct H2 as (evs2 & Hh2 & Hk2 & He2).
  destruct (removeTemporaries_run tar tmp w2) as (w3 & evs3 & E3 & Hh3 & Hl3 & Htar & Htmp).
  destruct o2 as [r2|e2].
  - unfold bind at 1. rewrite E3. unfold_monad. intros [= <- <-].
    exists (ev :: evs2 ++ evs3)%list. rewrite Hh3, Hh2, Hh, <- !app_assoc.
    split; [done|]. split.
    + constructor; [by destruct ev|]. apply Forall_app. split; [|done].
      by apply keeps_files_local.
    + split; [done|]. destruct Htmp as [?|[msg Hm]]; [by left|].
      right. exists msg. apply list_elem_of_further, elem_of_app. by right.
  - intros [= <- <-]. exists (ev :: evs2)%list. rewrite Hh2, Hh, <- !app_assoc.
    split; [done|]. split.
    + constructor; [by destruct ev|]. by apply keeps_files_local.
    + split; [done|]. by constructor.
Qed.

Lemma deliver_history tar tmp dest inMemory unpack w o w' :
  deliver env tar tmp dest inMemory unpack w = (o, w') ->
  exists evs, history w' = (history w ++ evs)%list /\ Forall is_local evs.
Proof.
  destruct inMemory; [|destruct unpack]; intros H.
  - apply deliver_memory in H as (evs & ? & ? & _). eauto.
  - apply deliver_unpacked in H as (evs & ? & ? & _). eauto.
  - apply deliver_packed in H as (_ & evs & ? & ?).
    exists evs. split; [done|]. by apply keeps_files_local.
Qed.

(** The two halves of [downloadSandbox]: either it returns before the
    fetch and has changed nothing, or it fetches into a fresh directory and,
    if the fetch succeeds, delivers the archive. *)
Lemma downloadSandbox_run d dest inMemory unpack w o w' :
  downloadSandbox env self d dest inMemory unpack w = (o, w') ->
  (w' = w /\ forall r, o = Done r -> OK r = false)
  \/ exists seName sePFN tmp result f,
       parseLocation d = inr (seName, sePFN)
       /\ let w2 := mkWorld f (history w ++ [EvMkdtemp tmp;
                                             EvGetFile seName sePFN tmp (OK result)]) in
          (OK result = false /\ o = Done result /\ w' = w2)
          \/ (OK result = true
              /\ deliver env (OsPath.join tmp (OsPath.basename sePFN)) tmp dest
                   inMemory unpack w2 = (o, w')).
Proof.
  unfold downloadSandbox.
  destruct (parseLocation d) as [e|[seName sePFN]] eqn:Ep.
  { apply parseLocation_inl in Ep as ->. unfold_monad. intros [= <- <-].
    left. split; [done|]. by intros r [= <-]. }
  unfold mbind, M_bind, bind at 1. unfold try_except. unfold bind at 1.
  rewrite os_mkdtemp_run.
  destruct (mkdtemp_name env w "TMSB.") as [tmp|e].
  2:{ destruct (is_OSError e); unfold_monad; intros [= <- <-]; left;
        (split; [done|]); by intros r [= <-]. }
  unfold mret, M_ret, ret at 1. unfold fetchInto.
  unfold mbind, M_bind, bind at 1. unfold get_world at 1.
  destruct (se_getFile env _ (vo self) seName sePFN tmp) as [result f] eqn:Eg.
  unfold bind at 1, put_fs at 1. unfold bind at 1, emit at 1. cbn [fs history].
  rewrite <- app_assoc. cbn [app].
  intros H. right. exists seName, sePFN, tmp, result, f. split; [done|].
  destruct (OK result) eqn:Eok; cbn [negb] in H.
  - right. by split.
  - left. unfold_monad. by injection H as <- <-.
Qed.

Lemma fetched_app evs1 evs2 : fetched (evs1 ++ evs2) = (fetched evs1 ++ fetched evs2)%list.
Proof. apply flat_map_app. Qed.

Lemma fetched_local evs : Forall is_local evs -> fetched evs = [].
Proof.
  induction 1 as [|ev evs H _ IH]; [done|]. cbn [fetched flat_map].
  fold (fetched evs). rewrite IH. by destruct ev.
Qed.

(** One call fetches at most once, the location it was given, and does so
    whenever it succeeds. *)
Lemma downloadSandbox_fetched d dest inMemory unpack w o w' :
  downloadSandbox env self d dest inMemory unpack w = (o, w') ->
  exists evs, history w' = (history w ++ evs)%list
    /\ ((fetched evs = [] /\ forall r, o = Done r -> OK r = false)
        \/ fetched evs = locationsOf [d] /\ locationsOf [d] <> []).
Proof.
  intros H. apply downloadSandbox_run in H as [[-> Hfail]|H].
  - exists []. rewrite app_nil_r. split; [done|]. by left.
  - destruct H as (seName & sePFN & tmp & result & f & Ep & H).
    assert (Hloc : locationsOf [d] = [(seName, sePFN)])
      by (unfold locationsOf; cbn [flat_map]; by rewrite Ep).
    rewrite Hloc. cbv zeta in H. destruct H as [(Eok & -> & ->)|(Eok & H)].
    + eexists. split; [reflexivity|]. by right.
    + apply deliver_history in H as (evs & Hh & Hl). cbn [history] in Hh.
      exists ([EvMkdtemp tmp; EvGetFile seName sePFN tmp (OK result)] ++ evs)%list.
      rewrite Hh, <- app_assoc. split; [done|]. right.
      by rewrite fetched_app, (fetched_local _ Hl).
Qed.

End Download.



Section Lifecycle.
Context (env : Env) (self : Client).




End Lifecycle.

(** ** Downloads for a job *)

Section ForJob.
Context (env : Env) (self : Client).

Lemma locationsOf_cons d rest :
  locationsOf (d :: rest) = (locationsOf [d] ++ locationsOf rest)%list.
Proof. unfold locationsOf. cbn [flat_map]. by rewrite app_nil_r. Qed.

Lemma locationsOf_app l1 l2 :
  locationsOf (l1 ++ l2) = (locationsOf l1 ++ locationsOf l2)%list.
Proof. apply flat_map_app. Qed.

Lemma downloadEach_app dest unpack pre w vs w1 :
  fetched_in_order env self dest unpack pre w vs w1 ->
  forall rest acc,
    downloadEach env self (pre ++ rest) dest false unpack acc w
      = downloadEach env self rest dest false unpack (acc ++ vs) w1.
Proof.
  induction 1 as [w|d pre w r w1 vs w2 Hd Hok _ IH]; intros rest acc.
  - by rewrite app_nil_r.
  - cbn [app downloadEach]. unfold mbind, M_bind, bind. rewrite Hd, Hok.
    cbn [negb]. rewrite IH. by rewrite <- app_assoc.
Qed.

Lemma fetched_in_order_history dest unpack locs w vs w1 :
  fetched_in_order env self dest unpack locs w vs w1 ->
  exists evs, history w1 = (history w ++ evs)%list /\ fetched evs = locationsOf locs.
Proof.
  induction 1 as [w|d pre w r w1 vs w2 Hd Hok _ (evs2 & Hh2 & Hf2)].
  - exists []. by rewrite app_nil_r.
  - apply downloadSandbox_fetched in Hd as (evs1 & Hh1 & [[_ Hfail]|[Hf1 _]]).
    { specialize (Hfail r eq_refl). congruence. }
    exists (evs1 ++ evs2)%list. rewrite Hh2, Hh1, <- app_assoc. split; [done|].
    by rewrite fetched_app, Hf1, Hf2, <- locationsOf_cons.
Qed.

(** C7. With [inMemory], [downloadSandboxForJob] is one
    [downloadSandbox] of the last descriptor registered for the type, and
    no other location is fetched.  Without it, the descriptors are fetched
    one by one in the order of the list: when all succeed their values are
    returned and the fetches are those of the list in order; as soon as one
    fails its error is returned in the world that fetch left, nothing of
    the rest of the list being attempted. *)
Theorem C7_download_policy jobId sbType dest unpack w sbDict locs :
  rpc_getSandboxesAssignedToEntity env w ("Job:" +:+ jobId) = inr sbDict ->
  sbDict !! sbType = Some locs ->
  let w0 := mkWorld (fs w)
              (history w ++ [EvGetSandboxesAssignedToEntity ("Job:" +:+ jobId)]) in
  (forall earlier d, locs = (earlier ++ [d])%list ->
     downloadSandboxForJob env self jobId sbType dest true unpack w
       = downloadSandbox env self d dest true unpack w0
     /\ forall o w', downloadSandbox env self d dest true unpack w0 = (o, w') ->
          exists evs, history w' = (history w0 ++ evs)%list
            /\ (fetched evs = [] \/ fetched evs = locationsOf [d]))
  /\ (forall vs w1, fetched_in_order env self dest unpack locs w0 vs w1 ->
        downloadSandboxForJob env self jobId sbType dest false unpack w
          = (Done (S_OK (VList vs)), w1)
        /\ exists evs, history w1 = (history w0 ++ evs)%list
             /\ fetched evs = locationsOf locs)
  /\ (forall pre d post vs w1 r w2,
        locs = (pre ++ d :: post)%list ->
        fetched_in_order env self dest unpack pre w0 vs w1 ->
        downloadSandbox env self d dest false unpack w1 = (Done r, w2) ->
        OK r = false ->
        downloadSandboxForJob env self jobId sbType dest false unpack w = (Done r, w2)
        /\ exists evs, history w2 = (history w0 ++ evs)%list
             /\ (fetched evs = locationsOf pre
                 \/ fetched evs = locationsOf (pre ++ [d]))).
Proof.
  intros Hrpc Hty w0.
  assert (Hrun : forall inMemory,
    downloadSandboxForJob env self jobId sbType dest inMemory unpack w =
      (if inMemory then
         match last locs with
         | None => raise (IndexError "list index out of range")
         | Some sbLocation => downloadSandbox env self sbLocation dest inMemory unpack
         end
       else downloadEach env self locs dest inMemory unpack []) w0).
  { intros inMemory. unfold downloadSandboxForJob. unfold_monad.
    cbn [fs history]. by rewrite Hrpc, Hty. }
  split; [|split].
  - intros earlier d ->. rewrite Hrun, last_snoc. split; [done|].
    intros o w' Hd. apply downloadSandbox_fetched in Hd as (evs & Hh & Hf).
    exists evs. split; [done|]. destruct Hf as [[? _]|[? _]]; [by left|by right].
  - intros vs w1 Hall. rewrite Hrun. split.
    + rewrite <- (app_nil_r locs). rewrite (downloadEach_app _ _ _ _ _ _ Hall).
      done.
    + by apply fetched_in_order_history in Hall.
  - intros pre d post vs w1 r w2 -> Hpre Hd Hfail. rewrite Hrun. split.
    + rewrite (downloadEach_app _ _ _ _ _ _ Hpre). cbn [downloadEach].
      unfold mbind, M_bind, bind. rewrite Hd, Hfail. done.
    + apply fetched_in_order_history in Hpre as (evs1 & Hh1 & Hf1).
      apply downloadSandbox_fetched in Hd as (evs2 & Hh2 & Hf2).
      exists (evs1 ++ evs2)%list. rewrite Hh2, Hh1, <- app_assoc. split; [done|].
      rewrite fetched_app, Hf1, locationsOf_app.
      destruct Hf2 as [[-> _]|[-> _]]; [left; by rewrite app_nil_r|by right].
Qed.

(** C8, as the code has it. When the reply of the service has no entry
    for the requested type, [downloadSandboxForJob] returns one error whose
    text depends on the type and the job only, and which names "the job does
    not exist" among its possible causes; nothing is fetched.  A failure
    reported by the service is returned with its own message. *)
Theorem C8_no_sandbox_of_type jobId sbType dest inMemory unpack w :
  let w0 := mkWorld (fs w)
              (history w ++ [EvGetSandboxesAssignedToEntity ("Job:" +:+ jobId)]) in
  (forall sbDict,
      rpc_getSandboxesAssignedToEntity env w ("Job:" +:+ jobId) = inr sbDict ->
      sbDict !! sbType = None ->
      downloadSandboxForJob env self jobId sbType dest inMemory unpack w
        = (Done (S_ERROR
             ("No " +:+ sbType +:+ " sandbox found for job " +:+ jobId +:+ ". "
              +:+ "Possible causes are: the job does not exist, no sandbox was "
              +:+ "registered or you do not have permission to access it.")), w0))
  /\ (forall message,
      rpc_getSandboxesAssignedToEntity env w ("Job:" +:+ jobId) = inl message ->
      downloadSandboxForJob env self jobId sbType dest inMemory unpack w
        = (Done (S_ERROR message), w0)).
Proof.
  split.
  - intros sbDict Hrpc Hty. unfold downloadSandboxForJob. unfold_monad.
    cbn [fs history]. by rewrite Hrpc, Hty.
  - intros message Hrpc. unfold downloadSandboxForJob. unfold_monad.
    cbn [fs history]. by rewrite Hrpc.
Qed.

End ForJob.

(** ** The statements on the reference platform *)

Lemma C6_invalid_type_rejected_first_witness :
  (exists t, ~ In t validSandboxTypes /\
     uploadFilesAsSandbox (Sim.env Sim.plain) (FLSeq [FStr "a.txt"]) 0
       (Some [("Job:1", "Input"); ("Job:2", "Bogus")]) (Sim.disk 1)
     = (Done (S_ERROR ("Invalid sandbox type " +:+ t)), Sim.disk 1))
  /\ (exists t, ~ In t validSandboxTypes /\
     assignSandboxesToJob (Sim.env Sim.plain) Sim.client "42"
       [("SB:SE|/sb/1.tar.bz2", "Input"); ("SB:SE|/sb/2.tar.bz2", "Bogus")]
       "owner" "group" (Sim.disk 1)
     = (Done (S_ERROR ("Invalid Sandbox type " +:+ t)), Sim.disk 1)).
Proof.
  split.
  - apply (proj1 (C6_invalid_type_rejected_first (Sim.env Sim.plain) Sim.client)).
    apply Exists_cons_tl, Exists_cons_hd. cbn. intuition discriminate.
  - apply (proj2 (C6_invalid_type_rejected_first (Sim.env Sim.plain) Sim.client)).
    apply Exists_cons_tl, Exists_cons_hd. cbn. intuition discriminate.
Defined.

Lemma C3_size_guard_witness :
  let tf := [Sim.member "a.txt" (mkStat 420 1000 1000 1) (Sim.text "hello")] in
  (exists r w',
     uploadFilesAsSandbox (Sim.env Sim.plain) (FLSeq [FStr "a.txt"]) 3 None (Sim.disk 1)
       = (Done r, w')
     /\ OK r = false /\ Message r = "Size over the limit"
     /\ SandboxFileName r = Some "/tmp/LDSB.1"
     /\ fs w' !! "/tmp/LDSB.1" = Some (File (mkStat 384 0 0 0) (Sim.serialize tf))
     /\ history w' = [EvExists "a.txt" true; EvMkstemp "/tmp/LDSB.1";
                      EvTarWrite "/tmp/LDSB.1" tf; EvGlobbedSize "/tmp/LDSB.1" 16])
  /\ (exists r w',
       uploadFilesAsSandbox (Sim.env Sim.plain) (FLSeq [FStr "a.txt"]) 0 None (Sim.disk 1)
         = (Done r, w')
       /\ history w' =
            ([EvExists "a.txt" true; EvMkstemp "/tmp/LDSB.1"; EvTarWrite "/tmp/LDSB.1" tf;
              EvRead "/tmp/LDSB.1";
              EvSendFile "/tmp/LDSB.1"
                (digestOf (Sim.env Sim.plain) (Sim.serialize tf) +:+ ".tar.bz2") [] (OK r)]
             ++ (if OK r then [EvUnlink "/tmp/LDSB.1"] else []))%list).
Proof.
  intros tf. split.
  - refine (proj1 (C3_size_guard (Sim.env Sim.plain)) [FStr "a.txt"] 3 None (Sim.disk 1)
              "/tmp/LDSB.1" tf _ _ _ _ _ _ _).
    + apply List.Forall_nil.
    + apply List.Forall_cons; [reflexivity|apply List.Forall_nil].
    + reflexivity.
    + reflexivity.
    + vm_compute. reflexivity.
    + lia.
    + vm_compute. reflexivity.
  - refine (proj1 (proj2 (proj2 (C3_size_guard (Sim.env Sim.plain)))) [FStr "a.txt"] 0 None
              (Sim.disk 1) "/tmp/LDSB.1" tf _ _ _ _ _ _).
    + apply List.Forall_nil.
    + apply List.Forall_cons; [reflexivity|apply List.Forall_nil].
    + reflexivity.
    + reflexivity.
    + vm_compute. reflexivity.
    + lia.
Defined.

Lemma C9_missing_files_aggregated_witness :
  fst (uploadFilesAsSandbox (Sim.env Sim.plain)
         (FLSeq [FStr "c.txt"; FStr "a.txt"; FStringIO "<jdl/>"; FStr "LFN:/lhcb/x"; FStr "d.txt"])
         0 (Some [("Job:1", "Input")]) (Sim.disk 1))
    = Done (S_ERROR "Failed to locate files: c.txt, d.txt").
Proof.
  rewrite (C9_missing_files_aggregated (Sim.env Sim.plain)
             [FStr "c.txt"; FStr "a.txt"; FStringIO "<jdl/>"; FStr "LFN:/lhcb/x"; FStr "d.txt"]
             0 (Some [("Job:1", "Input")]) (Sim.disk 1)).
  - vm_compute. reflexivity.
  - repeat constructor.
  - repeat constructor.
  - vm_compute. discriminate.
Defined.

Lemma C10_lfn_entries_skipped_witness :
  exists st sizeEvs r,
    size_checked 0 "/tmp/LDSB.0" sizeEvs /\
    uploadFilesAsSandbox (Sim.env Sim.plain)
      (FLSeq [FStr "lfn:/lhcb/a"; FStr "LFN:/lhcb/b"]) 0 None (Sim.disk 1) =
      (Done (set_SandboxFileName r "/tmp/LDSB.0"),
       mkWorld (if OK r then delete "/tmp/LDSB.0" (fs (Sim.disk 1))
                else <["/tmp/LDSB.0" := File st (Sim.serialize [])]> (fs (Sim.disk 1)))
               (history (Sim.disk 1) ++ [EvMkstemp "/tmp/LDSB.0"; EvTarWrite "/tmp/LDSB.0" []]
                  ++ sizeEvs
                  ++ [EvRead "/tmp/LDSB.0";
                      EvSendFile "/tmp/LDSB.0"
                        (digestOf (Sim.env Sim.plain) (Sim.serialize []) +:+ ".tar.bz2")
                        [] (OK r)]
                  ++ (if OK r then [EvUnlink "/tmp/LDSB.0"] else []))).
Proof.
  apply (proj2 (C10_lfn_entries_skipped (Sim.env Sim.plain))
           [FStr "lfn:/lhcb/a"; FStr "LFN:/lhcb/b"] 0 None (Sim.disk 1) "/tmp/LDSB.0").
  - repeat constructor.
  - constructor.
  - reflexivity.
  - left. lia.
Defined.

Lemma C1_same_members_same_name_witness :
  let env := Sim.env Sim.plain in
  let items := [FStr "lfn:/lhcb/x"; FStr "a.txt"] in
  exists tf r1 w1' evs1 r2 w2' evs2,
    uploadFilesAsSandbox env (FLSeq items) 0 (Some [("Job:1", "Input")]) (Sim.disk 1)
      = (Done r1, w1')
    /\ uploadFilesAsSandbox env (FLSeq items) 100 None (Sim.later 1) = (Done r2, w2')
    /\ history w1' = (history (Sim.disk 1) ++ evs1)%list
    /\ history w2' = (history (Sim.later 1) ++ evs2)%list
    /\ EvTarWrite "/tmp/LDSB.1" tf ∈ evs1 /\ EvTarWrite "/tmp/LDSB.2" tf ∈ evs2
    /\ EvSendFile "/tmp/LDSB.1" (canonicalName env tf) [("Job:1", "Input")] (OK r1) ∈ evs1
    /\ EvSendFile "/tmp/LDSB.2" (canonicalName env tf) [] (OK r2) ∈ evs2
    /\ canonicalName env tf
       = Sim.hex (fold_left (fun h data => (h ++ data)%list) (chunks (Sim.serialize tf)) [])
         +:+ ".tar.bz2"
    /\ concat (chunks (Sim.serialize tf)) = Sim.serialize tf
    /\ Forall (fun c => c <> [] /\ Z.of_nat (length c) <= 10240)
              (chunks (Sim.serialize tf)).
Proof.
  intros env items.
  refine (C1_same_members_same_name env items 0 (Some [("Job:1", "Input")]) (Sim.disk 1)
            "/tmp/LDSB.1" 100 None (Sim.later 1) "/tmp/LDSB.2" _ _ _ _ _ _ _ _ _ _).
  - repeat (apply List.Forall_cons; [reflexivity|]). apply List.Forall_nil.
  - apply List.Forall_cons; [cbn; tauto|apply List.Forall_nil].
  - apply List.Forall_nil.
  - reflexivity.
  - reflexivity.
  - reflexivity.
  - reflexivity.
  - left. lia.
  - right. intros tf H. vm_compute in H. injection H as <-. vm_compute. discriminate.
  - apply List.Forall_cons; [|apply List.Forall_nil].
    eexists. split; vm_compute; reflexivity.
Defined.

(** C1 as stated does not hold: two disks whose files have the same bytes
    but were written at different times give archives with different
    names, because the header of a member carries the modification time
    that [os.stat] reports. *)
Lemma C1_identical_content_different_name :
  let run t := uploadFilesAsSandbox (Sim.env Sim.plain)
                 (FLSeq [FStr "a.txt"; FStr "b.txt"]) 0 None (Sim.disk t) in
  Forall (fun p => file_data (fs (Sim.disk 1)) p = file_data (fs (Sim.disk 2)) p)
         ["a.txt"; "b.txt"]
  /\ NoDup (map OsPath.basename ["a.txt"; "b.txt"])
  /\ exists name1 name2,
       EvSendFile "/tmp/LDSB.2" name1 [] true ∈ history (snd (run 1))
       /\ EvSendFile "/tmp/LDSB.2" name2 [] true ∈ history (snd (run 2))
       /\ name1 <> name2.
Proof.
  intros run. split; [|split].
  - repeat (apply List.Forall_cons; [vm_compute; reflexivity|]). apply List.Forall_nil.
  - apply NoDup_cons. split; [|apply NoDup_singleton].
    vm_compute. intros H. apply list_elem_of_singleton in H. discriminate H.
  - exists "612e74787431646972616368656c6c6f622e747874376469726163776f726c64.tar.bz2",
           "612e74787432646972616368656c6c6f622e747874376469726163776f726c64.tar.bz2".
    split; [|split].
    + vm_compute. in_list.
    + vm_compute. in_list.
    + discriminate.
Qed.



Lemma C7_download_policy_witness :
  let w0 := mkWorld (fs (Sim.disk 1)) [EvGetSandboxesAssignedToEntity "Job:42"] in
  downloadSandboxForJob (Sim.env Sim.stocked) Sim.client "42" "Output" "" true true
    (Sim.disk 1)
  = downloadSandbox (Sim.env Sim.stocked) Sim.client "SB:SE|/sb/2.tar.bz2" "" true true w0
  /\ exists w2,
       downloadSandboxForJob (Sim.env Sim.stocked) Sim.client "42" "Output" "" false false
         (Sim.disk 1)
       = (Done (S_ERROR "File does not exist"), w2)
       /\ exists evs, history w2 = (history w0 ++ evs)%list
            /\ (fetched evs = locationsOf ["SB:SE|/sb/1.tar.bz2"]
                \/ fetched evs = locationsOf (["SB:SE|/sb/1.tar.bz2"] ++ ["SB:SE|/sb/3.tar.bz2"])).
Proof.
  intros w0.
  pose proof (C7_download_policy (Sim.env Sim.stocked) Sim.client "42" "Output" ""
                true (Sim.disk 1)
                (<["Output" := ["SB:SE|/sb/1.tar.bz2"; "SB:SE|/sb/3.tar.bz2";
                                "SB:SE|/sb/2.tar.bz2"]]> ∅)
                ["SB:SE|/sb/1.tar.bz2"; "SB:SE|/sb/3.tar.bz2"; "SB:SE|/sb/2.tar.bz2"]
                eq_refl eq_refl) as [Hmem _].
  pose proof (C7_download_policy (Sim.env Sim.stocked) Sim.client "42" "Output" ""
                false (Sim.disk 1)
                (<["Output" := ["SB:SE|/sb/1.tar.bz2"; "SB:SE|/sb/3.tar.bz2";
                                "SB:SE|/sb/2.tar.bz2"]]> ∅)
                ["SB:SE|/sb/1.tar.bz2"; "SB:SE|/sb/3.tar.bz2"; "SB:SE|/sb/2.tar.bz2"]
                eq_refl eq_refl) as [_ [_ Hdisk]].
  split.
  - apply (Hmem ["SB:SE|/sb/1.tar.bz2"; "SB:SE|/sb/3.tar.bz2"] "SB:SE|/sb/2.tar.bz2").
    reflexivity.
  - eexists.
    eapply (Hdisk ["SB:SE|/sb/1.tar.bz2"] "SB:SE|/sb/3.tar.bz2" ["SB:SE|/sb/2.tar.bz2"]).
    + reflexivity.
    + eapply fetched_next; [vm_compute; reflexivity|reflexivity|apply fetched_none].
    + vm_compute. reflexivity.
    + reflexivity.
Defined.

Lemma C8_no_sandbox_of_type_witness :
  fst (downloadSandboxForJob (Sim.env Sim.stocked) Sim.client "42" "Input" "" false true
         (Sim.disk 1))
  = Done (S_ERROR ("No Input sandbox found for job 42. Possible causes are: "
                   +:+ "the job does not exist, no sandbox was registered or you "
                   +:+ "do not have permission to access it.")).
Proof.
  rewrite (proj1 (C8_no_sandbox_of_type (Sim.env Sim.stocked) Sim.client "42" "Input" ""
                    false true (Sim.disk 1))
             (<["Output" := ["SB:SE|/sb/1.tar.bz2"; "SB:SE|/sb/3.tar.bz2";
                             "SB:SE|/sb/2.tar.bz2"]]> ∅)).
  - reflexivity.
  - reflexivity.
  - vm_compute. reflexivity.
Defined.

(** C8 as stated does not hold: a job that has output sandboxes but no
    input sandbox, and a job of which the service has no record at all, get
    the same result from [downloadSandboxForJob]. *)
Lemma C8_unknown_job_same_error :
  Sim.assigned Sim.stocked "Job:42" <> inr ∅
  /\ Sim.assigned Sim.plain "Job:42" = inr ∅
  /\ downloadSandboxForJob (Sim.env Sim.stocked) Sim.client "42" "Input" "" false true
       (Sim.disk 1)
     = downloadSandboxForJob (Sim.env Sim.plain) Sim.client "42" "Input" "" false true
         (Sim.disk 1).
Proof.
  split; [|split].
  - intros H. vm_compute in H. discriminate H.
  - reflexivity.
  - vm_compute. reflexivity.
Qed.

(** * Further properties of the client *)

(** ** Validation of [fileList] *)

Section Validation.
Context (env : Env).

Lemma scanFileList_prefix pre rest : forall fu er w,
  Forall (fun i => supported i = true) pre ->
  scanFileList (pre ++ rest) fu er w =
    scanFileList rest
      (fu ++ filter (fun i => uploadable (fs w) i = true) pre)
      (er ++ missingPaths (fs w) pre)
      (mkWorld (fs w)
         (history w ++ map (fun p => EvExists p (exists_in (fs w) p)) (localPaths pre))).
Proof.
  induction pre as [|item pre IH]; intros fu er w H.
  - cbn. rewrite !app_nil_r. by destruct w.
  - inversion H as [|? ? Hi Hr]; subst.
    destruct item as [s|text|ty rp]; [| |done]; cbn [app scanFileList].
    + unfold missingPaths, localPaths. cbn [flat_map is_lfn].
      destruct (PyStr.search_start_ignorecase "lfn:" s) eqn:El.
      * rewrite IH by done. rewrite filter_cons_False; [done|].
        unfold uploadable, is_lfn. by rewrite El.
      * unfold os_path_exists. unfold_monad. cbn [fs history app map].
        fold (exists_in (fs w) s).
        destruct (exists_in (fs w) s) eqn:Ex.
        -- rewrite IH by done. cbn [fs history].
           rewrite (filter_cons_True (fun i => uploadable (fs w) i = true))
             by (unfold uploadable, is_lfn; by rewrite El, Ex).
           rewrite (filter_cons_False (fun p => exists_in (fs w) p = false))
             by (by rewrite Ex).
           by rewrite <- !app_assoc.
        -- rewrite IH by done. cbn [fs history].
           rewrite (filter_cons_False (fun i => uploadable (fs w) i = true))
             by (unfold uploadable, is_lfn; by rewrite El, Ex).
           rewrite (filter_cons_True (fun p => exists_in (fs w) p = false))
             by done.
           by rewrite <- !app_assoc.
    + rewrite IH by done. rewrite filter_cons_True by done.
      by rewrite <- app_assoc.
Qed.

(** X1. An element of [fileList] that is neither a string nor a
    [StringIO] ends [uploadFilesAsSandbox] at once with the error that
    names its type: the local paths before it have been looked up, those
    after it have not, files found missing so far are not reported, and no
    staging file is created. *)
Theorem unsupported_element_ends_scan pre ty rp post sizeLimit assignTo w :
  Forall (fun kv => In (snd kv) validSandboxTypes) (default [] assignTo) ->
  Forall (fun i => supported i = true) pre ->
  uploadFilesAsSandbox env (FLSeq (pre ++ FOther ty rp :: post)) sizeLimit assignTo w =
    (Done (S_ERROR ("Objects of type " +:+ ty +:+ " can't be part of InputSandbox")),
     mkWorld (fs w)
       (history w ++ map (fun p => EvExists p (exists_in (fs w) p)) (localPaths pre))).
Proof.
  intros Ha Hpre. unfold uploadFilesAsSandbox. cbv zeta.
  rewrite (checkAssignTo_valid _ Ha).
  unfold mbind, M_bind, bind at 1. rewrite scanFileList_prefix by done.
  reflexivity.
Qed.

(** X2. With valid sandbox types, a [fileList] that is not a list or a
    tuple is refused before anything is looked up or created. *)
Theorem fileList_must_be_sequence sizeLimit assignTo w :
  Forall (fun kv => In (snd kv) validSandboxTypes) (default [] assignTo) ->
  uploadFilesAsSandbox env FLOther sizeLimit assignTo w
    = (Done (S_ERROR "fileList must be a list or tuple!"), w).
Proof.
  intros Ha. unfold uploadFilesAsSandbox. cbv zeta.
  by rewrite (checkAssignTo_valid _ Ha).
Qed.

(** X3. An exception of [tempfile.mkstemp] that is an [Exception] is
    turned into the error "Cannot create temporary file" with the [repr]
    of the exception; one that is not ([KeyboardInterrupt], [SystemExit])
    goes on to the caller.  Either way the file system is left as it was. *)
Theorem staging_failure_is_reported items sizeLimit assignTo w e :
  Forall (fun kv => In (snd kv) validSandboxTypes) (default [] assignTo) ->
  Forall (fun i => supported i = true) items ->
  missingPaths (fs w) items = [] ->
  let w1 := mkWorld (fs w)
              (history w ++ map (fun p => EvExists p (exists_in (fs w) p))
                                (localPaths items)) in
  mkstemp_name env w1 "LDSB." = inr e ->
  uploadFilesAsSandbox env (FLSeq items) sizeLimit assignTo w =
    if is_Exception e
    then (Done (S_ERROR ("Cannot create temporary file: " +:+ repr e)), w1)
    else (Raised e, w1).
Proof.
  intros Ha Hi Hm w1 He. unfold uploadFilesAsSandbox. cbv zeta.
  rewrite (checkAssignTo_valid _ Ha).
  unfold mbind, M_bind, bind at 1.
  rewrite scanFileList_supported by done. rewrite Hm. cbn [app].
  unfold mbind, M_bind, bind at 1. unfold try_except.
  unfold mbind, M_bind, bind at 1. rewrite os_mkstemp_run. fold w1. rewrite He.
  by destruct (is_Exception e).
Qed.

End Validation.

Lemma unsupported_element_ends_scan_witness :
  uploadFilesAsSandbox (Sim.env Sim.plain)
    (FLSeq ([FStr "missing.txt"; FStr "a.txt"] ++ FOther "<class 'int'>" "42"
              :: [FStr "also-missing.txt"])) 0 None (Sim.disk 1)
  = (Done (S_ERROR "Objects of type <class 'int'> can't be part of InputSandbox"),
     mkWorld (fs (Sim.disk 1))
       [EvExists "missing.txt" false; EvExists "a.txt" true]).
Proof.
  rewrite (unsupported_element_ends_scan (Sim.env Sim.plain)
             [FStr "missing.txt"; FStr "a.txt"] "<class 'int'>" "42"
             [FStr "also-missing.txt"] 0 None (Sim.disk 1)).
  - vm_compute. reflexivity.
  - constructor.
  - repeat constructor.
Defined.

Lemma fileList_must_be_sequence_witness :
  uploadFilesAsSandbox (Sim.env Sim.plain) FLOther 0 (Some [("Job:1", "Output")])
    (Sim.disk 1)
  = (Done (S_ERROR "fileList must be a list or tuple!"), Sim.disk 1).
Proof.
  apply (fileList_must_be_sequence (Sim.env Sim.plain) 0 (Some [("Job:1", "Output")])).
  apply List.Forall_cons; [cbn; tauto|apply List.Forall_nil].
Defined.

Lemma staging_failure_is_reported_witness :
  let interrupt := mkExn UnderBaseException "KeyboardInterrupt" "" in
  uploadFilesAsSandbox
    (Faulty.env Sim.plain (Faulty.mkFaults (Some PermissionError) None None))
    (FLSeq [FStr "a.txt"]) 0 None (Sim.disk 1)
  = (Done (S_ERROR "Cannot create temporary file: PermissionError(13, 'Permission denied')"),
     mkWorld (fs (Sim.disk 1)) [EvExists "a.txt" true])
  /\ uploadFilesAsSandbox
       (Faulty.env Sim.plain (Faulty.mkFaults (Some interrupt) None None))
       (FLSeq [FStr "a.txt"]) 0 None (Sim.disk 1)
     = (Raised interrupt, mkWorld (fs (Sim.disk 1)) [EvExists "a.txt" true]).
Proof.
  intros interrupt. split.
  - refine (staging_failure_is_reported
              (Faulty.env Sim.plain (Faulty.mkFaults (Some PermissionError) None None))
              [FStr "a.txt"] 0 None (Sim.disk 1) PermissionError _ _ _ _).
    + apply List.Forall_nil.
    + apply List.Forall_cons; [reflexivity|apply List.Forall_nil].
    + reflexivity.
    + reflexivity.
  - refine (staging_failure_is_reported
              (Faulty.env Sim.plain (Faulty.mkFaults (Some interrupt) None None))
              [FStr "a.txt"] 0 None (Sim.disk 1) interrupt _ _ _ _).
    + apply List.Forall_nil.
    + apply List.Forall_cons; [reflexivity|apply List.Forall_nil].
    + reflexivity.
    + reflexivity.
Defined.

(** ** What an upload does to the disk and to the transfer service *)

Section UploadEffects.
Context (env : Env).

(** X4. [uploadFilesAsSandbox] changes no file but its staging file:
    every path that is not the one [mkstemp] gave holds after the call what
    it held before. *)
Theorem upload_touches_only_staging_file fileList sizeLimit assignTo w o w' evs q :
  uploadFilesAsSandbox env fileList sizeLimit assignTo w = (o, w') ->
  history w' = (history w ++ evs)%list ->
  EvMkstemp q ∉ evs ->
  fs w' !! q = fs w !! q.
Proof.
  intros Hrun Hh Hq. apply uploadFilesAsSandbox_exits in Hrun.
  destruct Hrun as [evs0 e Hev ? ? ?|items e -> Es Ee|items p0 o w' -> Hi Hm Es Hb];
    [done|done|].
  assert (q <> p0) as Hne.
  { intros ->. apply Hq.
    destruct Hb as [tf e Ea|tf Ea Hpos Hover|tf sizeEvs Ea Hs];
      [| |clearbody r];
      unfold_worlds; rewrite <- ?app_assoc in Hh;
      apply app_inv_head in Hh as <-; find_event. }
  destruct Hb as [tf e Ea|tf Ea Hpos Hover|tf sizeEvs Ea Hs];
    [| |clearbody r]; unfold_worlds.
  - by rewrite !lookup_insert_ne.
  - by rewrite !lookup_insert_ne.
  - destruct (OK r).
    + rewrite lookup_delete_ne by done. by rewrite !lookup_insert_ne.
    + by rewrite !lookup_insert_ne.
Qed.

(** X5. The result of [uploadFilesAsSandbox] has the key
    ["SandboxFileName"] exactly when a staging file was created, and its
    value is the path of that file. *)
Theorem SandboxFileName_iff_staged fileList sizeLimit assignTo w r w' evs p :
  uploadFilesAsSandbox env fileList sizeLimit assignTo w = (Done r, w') ->
  history w' = (history w ++ evs)%list ->
  SandboxFileName r = Some p <-> EvMkstemp p ∈ evs.
Proof.
  intros Hrun Hh. apply uploadFilesAsSandbox_exits in Hrun.
  inversion Hrun as [evs0 e Hev He1 He2 He3|items e Efl Es Ee|items p0 o0 w0 Efl Hi Hm Es Hb];
    subst.
  - cbn [history] in Hh. apply app_inv_head in Hh as <-.
    rewrite He2. split; [done|]. intros Hin. in_history.
  - inversion Hb as [tf e Ea|tf Ea Hpos Hover|tf sizeEvs Ea Hs ws name r0]; subst;
      [|clearbody r0]; unfold_worlds; rewrite <- ?app_assoc in Hh;
      apply app_inv_head in Hh as <-; cbn [SandboxFileName set_SandboxFileName].
    + split.
      * intros [= ->]. find_event.
      * intros Hin. in_history; try done. by injection Hin as ->.
    + split.
      * intros [= ->]. find_event.
      * intros Hin. in_history; try done; by injection Hin as ->.
Qed.

Lemma sent_assignment fileList sizeLimit assignTo w o w' evs q name a ok :
  uploadFilesAsSandbox env fileList sizeLimit assignTo w = (o, w') ->
  history w' = (history w ++ evs)%list ->
  EvSendFile q name a ok ∈ evs ->
  a = default [] assignTo.
Proof.
  intros Hrun Hh Hin. apply uploadFilesAsSandbox_exits in Hrun.
  destruct Hrun as [evs0 e Hev ? ? ?|items e -> Es Ee|items p0 o w' -> Hi Hm Es Hb].
  - cbn [history] in Hh. apply app_inv_head in Hh as <-. in_history.
  - unfold_worlds. apply app_inv_head in Hh as <-. in_history.
  - destruct Hb as [tf e Ea|tf Ea Hpos Hover|tf sizeEvs Ea Hs];
      [| |clearbody r]; unfold_worlds; rewrite <- ?app_assoc in Hh;
      apply app_inv_head in Hh as <-.
    + in_history; done.
    + in_history; done.
    + in_history; try done; by injection Hin as -> -> -> ->.
Qed.

(** X6. When [uploadFilesAsSandbox] calls the transfer service, it sends
    its own staging file, which holds the archive of the members it has
    added, under the name made from the digest of that archive, with the
    caller's [assignTo] (an empty dictionary for [None]); and what it
    returns is the answer of the service to that call, with the staging
    path put under ["SandboxFileName"] and nothing else changed. *)
Theorem transfer_is_what_was_staged fileList sizeLimit assignTo w o w' evs q name a ok :
  uploadFilesAsSandbox env fileList sizeLimit assignTo w = (o, w') ->
  history w' = (history w ++ evs)%list ->
  EvSendFile q name a ok ∈ evs ->
  exists items tf sizeEvs,
    fileList = FLSeq items
    /\ mkstemp_name env (scanned w items) "LDSB." = inl q
    /\ addMembers env (staged env w items q) (files2Upload (fs w) items) [] = (tf, inl None)
    /\ size_passed env sizeLimit q (archived env (staged env w items q) q tf) sizeEvs
    /\ name = canonicalName env tf
    /\ a = default [] assignTo
    /\ let ws := sending (archived env (staged env w items q) q tf) q sizeEvs in
       file_data (fs ws) q = Some (tar_bz2 env tf)
       /\ o = Done (set_SandboxFileName (sendFile env ws q name a) q)
       /\ ok = OK (sendFile env ws q name a).
Proof.
  intros Hrun Hh Hin. apply uploadFilesAsSandbox_exits in Hrun.
  destruct Hrun as [evs0 e Hev ? ? ?|items e -> Es Ee|items p0 o w' -> Hi Hm Es Hb].
  - cbn [history] in Hh. apply app_inv_head in Hh as <-. in_history.
  - unfold_worlds. apply app_inv_head in Hh as <-. in_history.
  - destruct Hb as [tf e Ea|tf Ea Hpos Hover|tf sizeEvs Ea Hs].
    + unfold_worlds. rewrite <- ?app_assoc in Hh. apply app_inv_head in Hh as <-.
      in_history; done.
    + unfold_worlds. rewrite <- ?app_assoc in Hh. apply app_inv_head in Hh as <-.
      in_history; done.
    + assert (q = p0 /\ name = digestOf env (tar_bz2 env tf) +:+ ".tar.bz2"
              /\ a = default [] assignTo /\ ok = OK r) as (-> & Hname & -> & ->).
      { clear Ea. pose proof Hs as Hs'. clearbody r. unfold_worlds.
        rewrite <- ?app_assoc in Hh. apply app_inv_head in Hh as <-.
        destruct Hs'; in_history; try done; by injection Hin as -> -> -> ->. }
      exists items, tf, sizeEvs. split; [done|]. split; [done|]. split; [done|].
      split; [done|].
      split; [by rewrite Hname, digestOf_canonical|]. split; [done|].
      cbv zeta. subst r ws name0. rewrite Hname. split; [|done].
      unfold file_data, sending. cbn [fs]. by rewrite archived_lookup.
Qed.

(** X7. [uploadFilesAsSandboxForJob] refuses a sandbox type other than
    ["Input"] and ["Output"] without doing anything; for a valid type, an
    archive that reaches the transfer service is sent with the assignment
    of ["Job:<jobId>"] to that type and nothing else. *)
Theorem upload_for_job_assignment fileList jobId sbType sizeLimit w :
  (~ In sbType validSandboxTypes ->
     uploadFilesAsSandboxForJob env fileList jobId sbType sizeLimit w
       = (Done (S_ERROR ("Invalid Sandbox type " +:+ sbType)), w))
  /\ (In sbType validSandboxTypes ->
      forall o w' evs q name a ok,
        uploadFilesAsSandboxForJob env fileList jobId sbType sizeLimit w = (o, w') ->
        history w' = (history w ++ evs)%list ->
        EvSendFile q name a ok ∈ evs ->
        a = [("Job:" +:+ jobId, sbType)]).
Proof.
  unfold uploadFilesAsSandboxForJob. split.
  - intros H. apply valid_type_false in H. by rewrite H.
  - intros H o w' evs q name a ok Hrun Hh Hin.
    apply valid_type_iff in H. rewrite H in Hrun. cbn [negb] in Hrun.
    by rewrite (sent_assignment _ _ _ _ _ _ _ _ _ _ _ Hrun Hh Hin).
Qed.

End UploadEffects.

Lemma upload_touches_only_staging_file_witness :
  let run := uploadFilesAsSandbox (Sim.env Sim.plain) (FLSeq [FStr "a.txt"]) 0 None
               (Sim.disk 1) in
  fs (snd run) !! "a.txt" = fs (Sim.disk 1) !! "a.txt".
Proof.
  intros run.
  apply (upload_touches_only_staging_file (Sim.env Sim.plain) (FLSeq [FStr "a.txt"]) 0
           None (Sim.disk 1) (fst run) (snd run) (history (snd run)) "a.txt").
  - apply surjective_pairing.
  - reflexivity.
  - intros H. vm_compute in H.
    repeat (apply elem_of_cons in H as [H|H]; [discriminate H|]).
    by apply elem_of_nil in H.
Defined.

Lemma SandboxFileName_iff_staged_witness :
  exists r w',
    uploadFilesAsSandbox (Sim.env Sim.failing) (FLSeq [FStr "a.txt"]) 0 None (Sim.disk 1)
      = (Done r, w')
    /\ (SandboxFileName r = Some "/tmp/LDSB.1" <-> EvMkstemp "/tmp/LDSB.1" ∈ history w').
Proof.
  eexists _, _. split; [vm_compute; reflexivity|].
  eapply (SandboxFileName_iff_staged (Sim.env Sim.failing) (FLSeq [FStr "a.txt"]) 0 None
            (Sim.disk 1)).
  - vm_compute. reflexivity.
  - reflexivity.
Defined.

Lemma transfer_is_what_was_staged_witness :
  let run := uploadFilesAsSandbox (Sim.env Sim.failing) (FLSeq [FStr "a.txt"]) 0
               (Some [("Job:1", "Input")]) (Sim.disk 1) in
  fst run = Done (set_SandboxFileName (S_ERROR "Error while sending file") "/tmp/LDSB.1").
Proof.
  intros run.
  assert (exists name a, EvSendFile "/tmp/LDSB.1" name a false ∈ history (snd run))
    as (name & a & H) by (eexists _, _; vm_compute; in_list).
  destruct (transfer_is_what_was_staged (Sim.env Sim.failing) (FLSeq [FStr "a.txt"]) 0
              (Some [("Job:1", "Input")]) (Sim.disk 1) (fst run) (snd run)
              (history (snd run)) "/tmp/LDSB.1" name a false
              (surjective_pairing run) eq_refl H)
    as (items & tf & sizeEvs & _ & _ & _ & _ & _ & _ & _ & Ho & _).
  exact Ho.
Defined.

Lemma upload_for_job_assignment_witness :
  let run := uploadFilesAsSandboxForJob (Sim.env Sim.plain) (FLSeq [FStr "a.txt"]) "7"
               "Input" 0 (Sim.disk 1) in
  uploadFilesAsSandboxForJob (Sim.env Sim.plain) (FLSeq [FStr "a.txt"]) "7" "Scratch" 0
    (Sim.disk 1)
    = (Done (S_ERROR "Invalid Sandbox type Scratch"), Sim.disk 1)
  /\ exists q name a ok,
       EvSendFile q name a ok ∈ history (snd run) /\ a = [("Job:7", "Input")].
Proof.
  intros run.
  pose proof (upload_for_job_assignment (Sim.env Sim.plain) (FLSeq [FStr "a.txt"]) "7")
    as Hjob.
  split.
  - apply (proj1 (Hjob "Scratch" 0 (Sim.disk 1))).
    cbn. intros [H|[H|[]]]; discriminate H.
  - assert (exists q name a ok, EvSendFile q name a ok ∈ history (snd run))
      as (q & name & a & ok & H) by (eexists _, _, _, _; vm_compute; in_list).
    exists q, name, a, ok. split; [exact H|].
    apply (proj2 (Hjob "Input" 0 (Sim.disk 1)) (or_introl eq_refl) (fst run) (snd run)
             (history (snd run)) q name a ok (surjective_pairing run) eq_refl H).
Defined.

(** ** The digest of the whole archive *)

Section WholeDigest.
Context (env : Env).
Hypothesis update_nil : forall h, md5_update env h [] = h.
Hypothesis update_app : forall h a b,
  md5_update env (md5_update env h a) b = md5_update env h (a ++ b).

Lemma fold_update_concat l : forall h,
  fold_left (md5_update env) l h = md5_update env h (concat l).
Proof.
  induction l as [|c l IH]; intros h; cbn [fold_left concat].
  - by rewrite update_nil.
  - by rewrite IH, update_app.
Qed.

(** X8. For a hash whose [update] is incremental (feeding [a] then [b] is
    feeding [a ++ b], feeding nothing changes nothing), the loop that reads
    the archive 10240 bytes at a time computes the digest of the whole
    archive, and it has read all of it as soon as it is allowed more
    iterations than the archive has bytes. *)
Theorem streamed_digest_is_whole_digest (data : list byte) (fuel : nat) :
  (length data < fuel)%nat ->
  md5_stream env fuel (md5_new env) data = md5_update env (md5_new env) data
  /\ digestOf env data = md5_hexdigest env (md5_update env (md5_new env) data).
Proof.
  intros Hfuel.
  assert (H : forall n, (length data < n)%nat ->
            md5_stream env n (md5_new env) data = md5_update env (md5_new env) data).
  { intros n Hn. rewrite md5_stream_chunks, fold_update_concat.
    by rewrite (chunks_of_concat _ chunk_size_pos). }
  split; [by apply H|]. unfold digestOf. rewrite H; [done|lia].
Qed.

End WholeDigest.

Lemma streamed_digest_is_whole_digest_witness :
  md5_stream (Sim.env Sim.plain) 7 [] (Sim.text "bundle") = Sim.text "bundle"
  /\ digestOf (Sim.env Sim.plain) (Sim.text "bundle") = "62756e646c65".
Proof.
  apply (streamed_digest_is_whole_digest (Sim.env Sim.plain)
           (fun h => app_nil_r h) (fun h a b => eq_sym (app_assoc h a b))
           (Sim.text "bundle") 7).
  vm_compute. lia.
Defined.

(** ** What a download does *)

Section DownloadEffects.
Context (env : Env) (self : Client).

(** The call up to the fetch, when the descriptor is well formed and the
    temporary directory can be created. *)
Lemma downloadSandbox_fetch d dest inMemory unpack w seName sePFN tmp :
  parseLocation d = inr (seName, sePFN) ->
  mkdtemp_name env w "TMSB." = inl tmp ->
  let w1 := mkWorld (<[tmp := Dir]> (fs w)) (history w ++ [EvMkdtemp tmp]) in
  let result := fst (se_getFile env w1 (vo self) seName sePFN tmp) in
  let w2 := mkWorld (snd (se_getFile env w1 (vo self) seName sePFN tmp))
              (history w ++ [EvMkdtemp tmp; EvGetFile seName sePFN tmp (OK result)]) in
  downloadSandbox env self d dest inMemory unpack w =
    if OK result
    then deliver env (OsPath.join tmp (OsPath.basename sePFN)) tmp dest inMemory unpack w2
    else (Done result, w2).
Proof.
  intros Ep Em w1 result w2. unfold downloadSandbox. rewrite Ep.
  unfold mbind, M_bind, bind at 1. unfold try_except. unfold bind at 1.
  rewrite os_mkdtemp_run, Em. fold w1.
  unfold mret, M_ret, ret at 1. unfold fetchInto.
  unfold mbind, M_bind, bind at 1. unfold get_world at 1.
  subst result w2.
  destruct (se_getFile env w1 (vo self) seName sePFN tmp) as [result f].
  unfold bind at 1, put_fs at 1. unfold bind at 1, emit at 1.
  subst w1. cbn [fs history fst snd]. rewrite <- app_assoc. cbn [app].
  by destruct (OK result).
Qed.

(** X9. When the storage element reports a failure, [downloadSandbox]
    returns that report as it is, and leaves the temporary directory it has
    just created: nothing is unlinked or removed. *)
Theorem failed_fetch_is_returned d dest inMemory unpack w seName sePFN tmp result f :
  parseLocation d = inr (seName, sePFN) ->
  mkdtemp_name env w "TMSB." = inl tmp ->
  se_getFile env (mkWorld (<[tmp := Dir]> (fs w)) (history w ++ [EvMkdtemp tmp]))
    (vo self) seName sePFN tmp = (result, f) ->
  OK result = false ->
  downloadSandbox env self d dest inMemory unpack w
    = (Done result,
       mkWorld f (history w ++ [EvMkdtemp tmp; EvGetFile seName sePFN tmp false])).
Proof.
  intros Ep Em Eg Eok.
  rewrite (downloadSandbox_fetch _ _ _ _ _ _ _ _ Ep Em). cbv zeta.
  by rewrite Eg; cbn [fst snd]; rewrite Eok.
Qed.

(** X10. If [tempfile.mkdtemp] raises an [OSError], [downloadSandbox]
    returns the error "Cannot create temporary file"; any other exception
    leaves the call as an exception.  In both cases nothing was done. *)
Theorem mkdtemp_failure d dest inMemory unpack w seName sePFN e :
  parseLocation d = inr (seName, sePFN) ->
  mkdtemp_name env w "TMSB." = inr e ->
  downloadSandbox env self d dest inMemory unpack w =
    if is_OSError e
    then (Done (S_ERROR ("Cannot create temporary file: " +:+ repr e)), w)
    else (Raised e, w).
Proof.
  intros Ep Em. unfold downloadSandbox. rewrite Ep.
  unfold mbind, M_bind, bind at 1. unfold try_except. unfold bind at 1.
  rewrite os_mkdtemp_run, Em. by destruct (is_OSError e).
Qed.

(** X11. With [inMemory], when the fetch has put the archive, and nothing
    else, in the temporary directory, [downloadSandbox] returns the bytes
    of that file, and both the file and the directory are gone. *)
Theorem in_memory_returns_fetched_bytes d dest unpack w seName sePFN tmp result f st data :
  parseLocation d = inr (seName, sePFN) ->
  mkdtemp_name env w "TMSB." = inl tmp ->
  se_getFile env (mkWorld (<[tmp := Dir]> (fs w)) (history w ++ [EvMkdtemp tmp]))
    (vo self) seName sePFN tmp = (result, f) ->
  OK result = true ->
  let tar := OsPath.join tmp (OsPath.basename sePFN) in
  f !! tar = Some (File st data) ->
  f !! tmp = Some Dir ->
  children (delete tar f) tmp = [] ->
  downloadSandbox env self d dest true unpack w
    = (Done (S_OK (VBytes data)),
       mkWorld (delete tmp (delete tar f))
         (history w ++ [EvMkdtemp tmp; EvGetFile seName sePFN tmp true;
                        EvRead tar; EvUnlink tar; EvRmdir tmp])).
Proof.
  intros Ep Em Eg Eok tar Htar Htmp Hch.
  rewrite (downloadSandbox_fetch _ _ _ _ _ _ _ _ Ep Em). cbv zeta.
  rewrite Eg; cbn [fst snd]; rewrite Eok. fold tar.
  assert (Hne : tar <> tmp) by (intros E; rewrite E in Htar; congruence).
  unfold deliver, try_finally, try_except, os_read, os_unlink, os_rmdir.
  unfold_monad. cbn [fs history]. rewrite Htar. cbn [fs history]. rewrite Htar.
  cbn [fs history]. rewrite lookup_delete_ne by done. rewrite Htmp, Hch.
  cbn [fs history]. by rewrite <- !app_assoc.
Qed.

(** X12. With [inMemory], when the fetch is reported as a success but
    the archive is not where it is expected, the error prepared by the
    [except] clause is not what the caller gets: the [os.unlink] of the
    [finally] clause raises, and the temporary directory stays. *)
Theorem in_memory_missing_archive_raises d dest unpack w seName sePFN tmp result f :
  parseLocation d = inr (seName, sePFN) ->
  mkdtemp_name env w "TMSB." = inl tmp ->
  se_getFile env (mkWorld (<[tmp := Dir]> (fs w)) (history w ++ [EvMkdtemp tmp]))
    (vo self) seName sePFN tmp = (result, f) ->
  OK result = true ->
  let tar := OsPath.join tmp (OsPath.basename sePFN) in
  f !! tar = None ->
  downloadSandbox env self d dest true unpack w
    = (Raised FileNotFoundError,
       mkWorld f
         (history w ++ [EvMkdtemp tmp; EvGetFile seName sePFN tmp true;
                        EvRead tar; EvUnlink tar])).
Proof.
  intros Ep Em Eg Eok tar Htar.
  rewrite (downloadSandbox_fetch _ _ _ _ _ _ _ _ Ep Em). cbv zeta.
  rewrite Eg; cbn [fst snd]; rewrite Eok. fold tar.
  unfold deliver, try_finally, try_except, os_read, os_unlink, os_rmdir.
  unfold_monad. cbn [fs history]. rewrite Htar.
  change (is_OSError FileNotFoundError) with true. cbn [fs history].
  rewrite Htar. by rewrite <- !app_assoc.
Qed.

(** X13. One call of [downloadSandbox] asks the storage element at most
    once, for the backend and physical name of its descriptor; a result
    with ["OK"] true means that it did. *)
Theorem one_fetch_per_download d dest inMemory unpack w o w' evs :
  downloadSandbox env self d dest inMemory unpack w = (o, w') ->
  history w' = (history w ++ evs)%list ->
  (fetched evs = [] \/ fetched evs = locationsOf [d])
  /\ forall r, o = Done r -> OK r = true ->
       exists loc, parseLocation d = inr loc /\ fetched evs = [loc].
Proof.
  intros Hrun Hh.
  apply downloadSandbox_fetched in Hrun as (evs0 & Hh0 & Hf).
  rewrite Hh0 in Hh. apply app_inv_head in Hh as <-.
  destruct Hf as [[Hf Hfail]|[Hf Hne]].
  - split; [by left|]. intros r -> Hok. specialize (Hfail r eq_refl). congruence.
  - split; [by right|]. intros r _ _. rewrite Hf in *.
    unfold locationsOf in *. cbn [flat_map] in *.
    destruct (parseLocation d) as [e|loc]; [done|]. by exists loc.
Qed.

End DownloadEffects.

Lemma failed_fetch_is_returned_witness :
  downloadSandbox (Sim.env Sim.stocked) Sim.client "SB:SE|/sb/3.tar.bz2" "" false true
    (Sim.disk 1)
  = (Done (S_ERROR "File does not exist"),
     mkWorld (<["/tmp/TMSB.0" := Dir]> (fs (Sim.disk 1)))
       [EvMkdtemp "/tmp/TMSB.0"; EvGetFile "SE" "/sb/3.tar.bz2" "/tmp/TMSB.0" false]).
Proof.
  exact (failed_fetch_is_returned (Sim.env Sim.stocked) Sim.client "SB:SE|/sb/3.tar.bz2"
           "" false true (Sim.disk 1) "SE" "/sb/3.tar.bz2" "/tmp/TMSB.0"
           (S_ERROR "File does not exist") (<["/tmp/TMSB.0" := Dir]> (fs (Sim.disk 1)))
           eq_refl eq_refl eq_refl eq_refl).
Defined.

Lemma mkdtemp_failure_witness :
  let interrupt := mkExn UnderBaseException "KeyboardInterrupt" "" in
  downloadSandbox (Faulty.env Sim.stocked (Faulty.mkFaults None (Some PermissionError) None))
    Sim.client "SB:SE|/sb/1.tar.bz2" "" false true (Sim.disk 1)
  = (Done (S_ERROR "Cannot create temporary file: PermissionError(13, 'Permission denied')"),
     Sim.disk 1)
  /\ downloadSandbox (Faulty.env Sim.stocked (Faulty.mkFaults None (Some interrupt) None))
       Sim.client "SB:SE|/sb/1.tar.bz2" "" false true (Sim.disk 1)
     = (Raised interrupt, Sim.disk 1).
Proof.
  intros interrupt. split.
  - exact (mkdtemp_failure
             (Faulty.env Sim.stocked (Faulty.mkFaults None (Some PermissionError) None))
             Sim.client "SB:SE|/sb/1.tar.bz2" "" false true (Sim.disk 1)
             "SE" "/sb/1.tar.bz2" PermissionError eq_refl eq_refl).
  - exact (mkdtemp_failure
             (Faulty.env Sim.stocked (Faulty.mkFaults None (Some interrupt) None))
             Sim.client "SB:SE|/sb/1.tar.bz2" "" false true (Sim.disk 1)
             "SE" "/sb/1.tar.bz2" interrupt eq_refl eq_refl).
Defined.

Lemma in_memory_returns_fetched_bytes_witness :
  exists w',
    downloadSandbox (Sim.env Sim.stocked) Sim.client "SB:SE|/sb/1.tar.bz2" "" true true
      (Sim.disk 1)
    = (Done (S_OK (VBytes (Sim.text "bundle"))), w')
    /\ fs w' !! "/tmp/TMSB.0" = None
    /\ fs w' !! "/tmp/TMSB.0/1.tar.bz2" = None.
Proof.
  eexists. split.
  - apply (in_memory_returns_fetched_bytes (Sim.env Sim.stocked) Sim.client
             "SB:SE|/sb/1.tar.bz2" "" true (Sim.disk 1) "SE" "/sb/1.tar.bz2" "/tmp/TMSB.0"
             (S_OK VNone)
             (<["/tmp/TMSB.0/1.tar.bz2" := File (mkStat 420 0 0 0) (Sim.text "bundle")]>
                (<["/tmp/TMSB.0" := Dir]> (fs (Sim.disk 1))))
             (mkStat 420 0 0 0) (Sim.text "bundle"));
      vm_compute; reflexivity.
  - split; vm_compute; reflexivity.
Defined.

Lemma in_memory_missing_archive_raises_witness :
  downloadSandbox (Faulty.silent Sim.stocked) Sim.client "SB:SE|/sb/1.tar.bz2" "" true true
    (Sim.disk 1)
  = (Raised FileNotFoundError,
     mkWorld (<["/tmp/TMSB.0" := Dir]> (fs (Sim.disk 1)))
       [EvMkdtemp "/tmp/TMSB.0"; EvGetFile "SE" "/sb/1.tar.bz2" "/tmp/TMSB.0" true;
        EvRead "/tmp/TMSB.0/1.tar.bz2"; EvUnlink "/tmp/TMSB.0/1.tar.bz2"]).
Proof.
  apply (in_memory_missing_archive_raises (Faulty.silent Sim.stocked) Sim.client
           "SB:SE|/sb/1.tar.bz2" "" true (Sim.disk 1) "SE" "/sb/1.tar.bz2" "/tmp/TMSB.0"
           (S_OK VNone) (<["/tmp/TMSB.0" := Dir]> (fs (Sim.disk 1))));
    vm_compute; reflexivity.
Defined.

Lemma one_fetch_per_download_witness :
  let run := downloadSandbox (Sim.env Sim.stocked) Sim.client "SB:SE|/sb/1.tar.bz2" ""
               false true (Sim.disk 1) in
  (fetched (history (snd run)) = []
   \/ fetched (history (snd run)) = locationsOf ["SB:SE|/sb/1.tar.bz2"])
  /\ forall r, fst run = Done r -> OK r = true ->
       exists loc, parseLocation "SB:SE|/sb/1.tar.bz2" = inr loc
                   /\ fetched (history (snd run)) = [loc].
Proof.
  intros run.
  apply (one_fetch_per_download (Sim.env Sim.stocked) Sim.client "SB:SE|/sb/1.tar.bz2" ""
           false true (Sim.disk 1) (fst run) (snd run) (history (snd run))).
  - apply surjective_pairing.
  - reflexivity.
Defined.

(** ** Unpacking *)

Section Unpacking.
Context (env : Env) (self : Client).

Lemma extractAll_total members dest :
  (forall w0 m, exists f, tar_extract env w0 m dest = inl f) ->
  forall size w, exists w',
    extractAll env members dest size w
      = (Done (size + foldr (fun m acc => te_size m + acc) 0 members), w').
Proof.
  intros Hx. induction members as [|m rest IH]; intros size w.
  - exists w. cbn. by rewrite Z.add_0_r.
  - cbn [extractAll foldr]. unfold_monad. cbn [fs history].
    destruct (Hx w m) as [f ->]. cbn [fs history].
    destruct (IH (size + te_size m)
                (mkWorld f (history w ++ [EvExtract (te_name m) dest]))) as [w' ->].
    exists w'. by rewrite Z.add_assoc.
Qed.

(** X14. When the fetched bundle opens, once the destination directory
    is there, and every member extracts, [downloadSandbox] with [unpack]
    returns the sum of the sizes recorded for the members of the archive. *)
Theorem unpack_reports_total_size d dest w seName sePFN tmp result f tf :
  parseLocation d = inr (seName, sePFN) ->
  mkdtemp_name env w "TMSB." = inl tmp ->
  se_getFile env (mkWorld (<[tmp := Dir]> (fs w)) (history w ++ [EvMkdtemp tmp]))
    (vo self) seName sePFN tmp = (result, f) ->
  OK result = true ->
  let w2 := mkWorld f (history w ++ [EvMkdtemp tmp; EvGetFile seName sePFN tmp true]) in
  tar_open env (snd (resolveDestination env dest w2))
    (OsPath.join tmp (OsPath.basename sePFN)) = inl tf ->
  (forall w0 m dir, exists f0, tar_extract env w0 m dir = inl f0) ->
  exists w',
    downloadSandbox env self d dest false true w
      = (Done (S_OK (VInt (foldr (fun m acc => te_size m + acc) 0 tf))), w').
Proof.
  intros Ep Em Eg Eok w2 Hopen Hx.
  rewrite (downloadSandbox_fetch env self _ _ _ _ _ _ _ _ Ep Em). cbv zeta.
  rewrite Eg; cbn [fst snd]; rewrite Eok. fold w2.
  unfold deliver. cbv zeta. cbn [negb].
  destruct (resolveDestination_run env dest w2) as (dir & w1 & ev & E & _ & _).
  rewrite E in Hopen. cbn [snd] in Hopen.
  unfold mbind, M_bind, bind at 1. rewrite E.
  destruct (extractAll_total tf dir (fun w0 m => Hx w0 m dir) 0 w1) as [w3 E3].
  destruct (removeTemporaries_run (OsPath.join tmp (OsPath.basename sePFN)) tmp w3)
    as (w4 & evs4 & E4 & _).
  unfold_monad. rewrite Hopen, E3, E4. by exists w4.
Qed.

(** X15. When the fetched bundle cannot be opened, an [OSError] becomes
    the error "Could not open bundle" and the temporary files are removed
    as after a successful extraction; any other exception leaves
    [downloadSandbox] as it is, before the removal of the temporary files
    is attempted. *)
Theorem unopenable_bundle d dest w seName sePFN tmp result f e :
  parseLocation d = inr (seName, sePFN) ->
  mkdtemp_name env w "TMSB." = inl tmp ->
  se_getFile env (mkWorld (<[tmp := Dir]> (fs w)) (history w ++ [EvMkdtemp tmp]))
    (vo self) seName sePFN tmp = (result, f) ->
  OK result = true ->
  let tar := OsPath.join tmp (OsPath.basename sePFN) in
  let w2 := mkWorld f (history w ++ [EvMkdtemp tmp; EvGetFile seName sePFN tmp true]) in
  tar_open env (snd (resolveDestination env dest w2)) tar = inr e ->
  exists w' evs,
    history w' = (history w ++ evs)%list
    /\ if is_OSError e
       then downloadSandbox env self d dest false true w
              = (Done (S_ERROR ("Could not open bundle: " +:+ repr e)), w')
            /\ EvUnlink tar ∈ evs
            /\ forall st data, fs w' !! tar <> Some (File st data)
       else downloadSandbox env self d dest false true w = (Raised e, w')
            /\ forall q, (EvUnlink q ∉ evs) /\ (EvRmdir q ∉ evs).
Proof.
  intros Ep Em Eg Eok tar wf Hopen.
  rewrite (downloadSandbox_fetch env self _ _ _ _ _ _ _ _ Ep Em). cbv zeta.
  rewrite Eg; cbn [fst snd]; rewrite Eok. fold tar wf.
  unfold deliver. cbv zeta. cbn [negb].
  destruct (resolveDestination_run env dest wf) as (dir & w1 & ev & E & Hh1 & Hk).
  rewrite E in Hopen. cbn [snd] in Hopen. subst wf. cbn [history] in Hh1.
  destruct (is_OSError e) eqn:He.
  - unfold mbind, M_bind, bind at 1. rewrite E.
    unfold bind at 1, try_except. unfold bind at 1, get_world at 1.
    unfold bind at 1. rewrite Hopen. unfold lift_exn, raise. rewrite He.
    unfold mret, M_ret, ret at 1. unfold bind at 1.
    unfold removeTemporaries, try_except.
    destruct ((os_unlink tar ≫= fun _ => os_rmdir tmp) w1) as [[[]|e2] w2] eqn:E2;
      pose proof (remove_both_run _ _ _ _ _ E2) as Hrm.
    + destruct Hrm as (_ & Htar & Hh2). unfold_monad.
      eexists w2, _. rewrite Hh2, Hh1, <- !app_assoc. split; [reflexivity|].
      split; [done|]. split; [in_list|]. intros st data. by rewrite Htar.
    + destruct Hrm as (He2 & Htar & Hh2). rewrite He2. unfold_monad.
      destruct Hh2 as [Hh2|Hh2];
        eexists (mkWorld (fs w2) _), _; cbn [fs history];
        rewrite Hh2, Hh1, <- !app_assoc;
        (split; [reflexivity|]); (split; [done|]); (split; [in_list|done]).
  - unfold mbind, M_bind, bind at 1. rewrite E. unfold_monad. rewrite Hopen, He.
    exists w1, [EvMkdtemp tmp; EvGetFile seName sePFN tmp true; ev].
    rewrite Hh1, <- app_assoc. split; [done|]. split; [done|].
    intros q. split; intros Hq; in_history; try done; by destruct ev.
Qed.

End Unpacking.

(** ** Descriptors, once more *)

Section MoreCodec.

Lemma append_assoc (a b c : string) : (a +:+ b) +:+ c = a +:+ (b +:+ c).
Proof.
  induction a as [|x a IH]; [done|].
  change (String x ((a +:+ b) +:+ c) = String x (a +:+ (b +:+ c))). by rewrite IH.
Qed.

(** X16. A backend identifier that contains ['|'] does not survive the
    round trip: the descriptor made from it parses to what stands before
    its first ['|'], and the rest moves to the front of the physical name. *)
Theorem backend_with_bar_is_split (b1 b2 p : string) :
  PyStr.has_char "|" b1 = false ->
  parseLocation (formatLocation (b1 +:+ "|" +:+ b2) p)
    = inr (b1, b2 +:+ "|" +:+ p).
Proof.
  intros H. rewrite <- (parseLocation_format b1 (b2 +:+ "|" +:+ p) H).
  unfold formatLocation. by rewrite !append_assoc.
Qed.



End MoreCodec.

(** ** Downloads that keep the bundle *)

Section Packed.
Context (env : Env) (self : Client).


End Packed.

(** ** Requests about a job *)

Section JobRequests.
Context (env : Env) (self : Client).

(** X18. When the list of sandboxes of the requested type is empty,
    [downloadSandboxForJob] with [inMemory] raises [IndexError], and
    without it returns an empty list; nothing is fetched either way. *)
Theorem no_sandbox_registered jobId sbType dest unpack w sbDict :
  rpc_getSandboxesAssignedToEntity env w ("Job:" +:+ jobId) = inr sbDict ->
  sbDict !! sbType = Some [] ->
  let w0 := mkWorld (fs w)
              (history w ++ [EvGetSandboxesAssignedToEntity ("Job:" +:+ jobId)]) in
  downloadSandboxForJob env self jobId sbType dest true unpack w
    = (Raised (IndexError "list index out of range"), w0)
  /\ downloadSandboxForJob env self jobId sbType dest false unpack w
    = (Done (S_OK (VList [])), w0).
Proof.
  intros Hrpc Hty w0. unfold downloadSandboxForJob. unfold_monad.
  cbn [fs history]. by rewrite Hrpc, Hty.
Qed.

Lemma checkSbList_valid sbList :
  Forall (fun sbT => In (snd sbT) validSandboxTypes) sbList ->
  checkSbList sbList = None.
Proof.
  induction 1 as [|sbT rest H _ IH]; [done|]. cbn [checkSbList].
  apply valid_type_iff in H. by rewrite H.
Qed.

Lemma checkSbList_first pre loc ty post :
  Forall (fun sbT => In (snd sbT) validSandboxTypes) pre ->
  ~ In ty validSandboxTypes ->
  checkSbList (pre ++ (loc, ty) :: post)
    = Some (S_ERROR ("Invalid Sandbox type " +:+ ty)).
Proof.
  intros Hpre Hty. induction Hpre as [|sbT rest H _ IH]; cbn [app checkSbList snd].
  - apply valid_type_false in Hty. by rewrite Hty.
  - apply valid_type_iff in H. by rewrite H.
Qed.

(** X19. [assignSandboxesToJob] reports the first type of the list that
    is neither ["Input"] nor ["Output"], whatever follows it, and calls
    neither the service nor the database. *)
Theorem assignment_reports_first_invalid_type
    jobId pre loc ty post ownerName ownerGroup w :
  Forall (fun sbT => In (snd sbT) validSandboxTypes) pre ->
  ~ In ty validSandboxTypes ->
  assignSandboxesToJob env self jobId (pre ++ (loc, ty) :: post) ownerName ownerGroup w
    = (Done (S_ERROR ("Invalid Sandbox type " +:+ ty)), w).
Proof.
  intros Hpre Hty. unfold assignSandboxesToJob. cbv zeta.
  by rewrite (checkSbList_first _ loc _ post Hpre Hty).
Qed.

(** X20. With valid types, [assignSandboxesToJob] makes exactly one call,
    for the entity ["Job:<jobId>"] and the list as given: to the metadata
    database when direct access is on and both the owner's name and group
    are non-empty, to the service otherwise. *)
Theorem assignment_goes_to_one_backend jobId sbList ownerName ownerGroup w o w' evs :
  Forall (fun sbT => In (snd sbT) validSandboxTypes) sbList ->
  assignSandboxesToJob env self jobId sbList ownerName ownerGroup w = (o, w') ->
  history w' = (history w ++ evs)%list ->
  fs w' = fs w
  /\ ((smdb self = true /\ ownerName <> "" /\ ownerGroup <> ""
       /\ evs = [EvSmdbAssign ("Job:" +:+ jobId) sbList ownerName ownerGroup]
       /\ o = Done (smdb_assignSandboxesToEntities env w ("Job:" +:+ jobId) sbList
                      ownerName ownerGroup))
      \/ ((smdb self = false \/ ownerName = "" \/ ownerGroup = "")
          /\ evs = [EvRpcAssign ("Job:" +:+ jobId) sbList ownerName ownerGroup]
          /\ o = Done (rpc_assignSandboxesToEntities env w ("Job:" +:+ jobId) sbList
                         ownerName ownerGroup))).
Proof.
  intros Hv Hrun Hh. unfold assignSandboxesToJob in Hrun.
  rewrite (checkSbList_valid _ Hv) in Hrun. unfold truthy in Hrun.
  destruct (smdb self) eqn:Es; cbn [andb] in Hrun.
  - destruct (String.eqb ownerName "") eqn:En; cbn [negb andb] in Hrun.
    + unfold_monad. injection Hrun as <- <-. cbn [fs history] in *.
      apply app_inv_head in Hh as <-. split; [done|]. right.
      apply String.eqb_eq in En. auto.
    + destruct (String.eqb ownerGroup "") eqn:Eg; cbn [negb] in Hrun;
        unfold_monad; injection Hrun as <- <-; cbn [fs history] in *;
        apply app_inv_head in Hh as <-; (split; [done|]).
      * right. apply String.eqb_eq in Eg. auto.
      * left. apply String.eqb_neq in En, Eg. auto.
  - unfold_monad. injection Hrun as <- <-. cbn [fs history] in *.
    apply app_inv_head in Hh as <-. split; [done|]. right. auto.
Qed.

End JobRequests.

Lemma unpack_reports_total_size_witness :
  exists w',
    downloadSandbox (Sim.env Sim.stocked) Sim.client "SB:SE|/sb/1.tar.bz2" "" false true
      (Sim.disk 1)
    = (Done (S_OK (VInt 5)), w').
Proof.
  apply (unpack_reports_total_size (Sim.env Sim.stocked) Sim.client "SB:SE|/sb/1.tar.bz2"
           "" (Sim.disk 1) "SE" "/sb/1.tar.bz2" "/tmp/TMSB.0" (S_OK VNone)
           (<["/tmp/TMSB.0/1.tar.bz2" := File (mkStat 420 0 0 0) (Sim.text "bundle")]>
              (<["/tmp/TMSB.0" := Dir]> (fs (Sim.disk 1))))
           [Sim.member "a.txt" TarInfo_default (Sim.text "hello")]).
  - reflexivity.
  - reflexivity.
  - vm_compute. reflexivity.
  - reflexivity.
  - vm_compute. reflexivity.
  - intros w0 m dir. eexists. reflexivity.
Defined.

Lemma unopenable_bundle_witness :
  let gone := FileNotFoundError in
  let broken := mkExn UnderException "ReadError" "'not a bzip2 file'" in
  (exists w' evs,
     history w' = (history (Sim.disk 1) ++ evs)%list
     /\ downloadSandbox (Faulty.env Sim.stocked (Faulty.mkFaults None None (Some gone)))
          Sim.client "SB:SE|/sb/1.tar.bz2" "" false true (Sim.disk 1)
        = (Done (S_ERROR ("Could not open bundle: "
                          +:+ "FileNotFoundError(2, 'No such file or directory')")),
           w')
     /\ EvUnlink "/tmp/TMSB.0/1.tar.bz2" ∈ evs
     /\ forall st data, fs w' !! "/tmp/TMSB.0/1.tar.bz2" <> Some (File st data))
  /\ (exists w' evs,
        history w' = (history (Sim.disk 1) ++ evs)%list
        /\ downloadSandbox (Faulty.env Sim.stocked (Faulty.mkFaults None None (Some broken)))
             Sim.client "SB:SE|/sb/1.tar.bz2" "" false true (Sim.disk 1)
           = (Raised broken, w')
        /\ forall q, (EvUnlink q ∉ evs) /\ (EvRmdir q ∉ evs)).
Proof.
  intros gone broken. split.
  - apply (unopenable_bundle (Faulty.env Sim.stocked (Faulty.mkFaults None None (Some gone)))
             Sim.client "SB:SE|/sb/1.tar.bz2" "" (Sim.disk 1) "SE" "/sb/1.tar.bz2"
             "/tmp/TMSB.0" (S_OK VNone)
             (<["/tmp/TMSB.0/1.tar.bz2" := File (mkStat 420 0 0 0) (Sim.text "bundle")]>
                (<["/tmp/TMSB.0" := Dir]> (fs (Sim.disk 1))))
             gone); try reflexivity; vm_compute; reflexivity.
  - apply (unopenable_bundle (Faulty.env Sim.stocked (Faulty.mkFaults None None (Some broken)))
             Sim.client "SB:SE|/sb/1.tar.bz2" "" (Sim.disk 1) "SE" "/sb/1.tar.bz2"
             "/tmp/TMSB.0" (S_OK VNone)
             (<["/tmp/TMSB.0/1.tar.bz2" := File (mkStat 420 0 0 0) (Sim.text "bundle")]>
                (<["/tmp/TMSB.0" := Dir]> (fs (Sim.disk 1))))
             broken); try reflexivity; vm_compute; reflexivity.
Defined.


Lemma backend_with_bar_is_split_witness :
  parseLocation (formatLocation "SE|x" "/sb/1.tar.bz2") = inr ("SE", "x|/sb/1.tar.bz2").
Proof.
  exact (backend_with_bar_is_split "SE" "x" "/sb/1.tar.bz2" eq_refl).
Defined.

Lemma no_sandbox_registered_witness :
  let env := Sim.env (Sim.mkSetup true (fun _ _ => None) []
                        (fun _ => inr (<["Output" := []]> ∅))) in
  let w0 := mkWorld (fs (Sim.disk 1)) [EvGetSandboxesAssignedToEntity "Job:42"] in
  downloadSandboxForJob env Sim.client "42" "Output" "" true true (Sim.disk 1)
    = (Raised (IndexError "list index out of range"), w0)
  /\ downloadSandboxForJob env Sim.client "42" "Output" "" false true (Sim.disk 1)
    = (Done (S_OK (VList [])), w0).
Proof.
  intros env w0.
  exact (no_sandbox_registered env Sim.client "42" "Output" "" true (Sim.disk 1)
           (<["Output" := []]> ∅) eq_refl eq_refl).
Defined.

Lemma assignment_reports_first_invalid_type_witness :
  assignSandboxesToJob (Sim.env Sim.plain) Sim.client "42"
    ([("SB:SE|/sb/1.tar.bz2", "Input")] ++ ("SB:SE|/sb/2.tar.bz2", "Scratch")
       :: [("SB:SE|/sb/3.tar.bz2", "Bogus")]) "alice" "users" (Sim.disk 1)
  = (Done (S_ERROR "Invalid Sandbox type Scratch"), Sim.disk 1).
Proof.
  apply (assignment_reports_first_invalid_type (Sim.env Sim.plain) Sim.client "42"
           [("SB:SE|/sb/1.tar.bz2", "Input")] "SB:SE|/sb/2.tar.bz2" "Scratch"
           [("SB:SE|/sb/3.tar.bz2", "Bogus")] "alice" "users" (Sim.disk 1)).
  - apply List.Forall_cons; [cbn; tauto|apply List.Forall_nil].
  - cbn. intros [H|[H|[]]]; discriminate H.
Defined.

Lemma assignment_goes_to_one_backend_witness :
  let direct := mkClient None true in
  let sbList := [("SB:SE|/sb/1.tar.bz2", "Input")] in
  let run := assignSandboxesToJob (Sim.env Sim.plain) direct "42" sbList "alice" "users"
               (Sim.disk 1) in
  let anonymous := assignSandboxesToJob (Sim.env Sim.plain) direct "42" sbList "" "users"
                     (Sim.disk 1) in
  history (snd run) = [EvSmdbAssign "Job:42" sbList "alice" "users"]
  /\ history (snd anonymous) = [EvRpcAssign "Job:42" sbList "" "users"].
Proof.
  intros direct sbList run anonymous.
  assert (Hv : Forall (fun sbT => In (snd sbT) validSandboxTypes) sbList)
    by (apply List.Forall_cons; [cbn; tauto|apply List.Forall_nil]).
  pose proof (assignment_goes_to_one_backend (Sim.env Sim.plain) direct "42" sbList
                "alice" "users" (Sim.disk 1) (fst run) (snd run) (history (snd run))
                Hv (surjective_pairing run) eq_refl) as [_ H1].
  pose proof (assignment_goes_to_one_backend (Sim.env Sim.plain) direct "42" sbList
                "" "users" (Sim.disk 1) (fst anonymous) (snd anonymous)
                (history (snd anonymous))
                Hv (surjective_pairing anonymous) eq_refl) as [_ H2].
  split.
  - destruct H1 as [(_ & _ & _ & H & _)|([H|[H|H]] & _)]; [exact H|discriminate H..].
  - destruct H2 as [(_ & H & _)|(_ & H & _)]; [by destruct H|exact H].
Defined.
